(** * Transaction view pipeline: filtering, ordering, pagination, export

    A shallow embedding of the front end of the transaction browser
    (page.tsx, TransactionList.tsx, InlineFilters.tsx, SearchBar.tsx,
    lib/utils/format.ts, lib/utils/export.ts) together with the part of
    the ECMAScript runtime these files call, and the properties of the
    view pipeline established over it. *)

From Stdlib Require Import ZArith List String Ascii Bool Lia.
From Stdlib Require Import Floats.SpecFloat Numbers.DecimalString.
From Stdlib Require Import Sorting.Sorted Sorting.Permutation.
From ExtLib Require Import Structures.Monad Structures.MonadState.
From ExtLib Require Import Data.Monads.StateMonad Data.Monads.OptionMonad.
Import ListNotations.
Import MonadNotation.

Local Open Scope list_scope.
Local Open Scope string_scope.
Local Open Scope monad_scope.
Local Open Scope Z_scope.

(** ** The ECMAScript runtime used by the sources

    Strings are sequences of code units below 256 (hashes, addresses
    and decimal amounts are ASCII); case mapping and white space are
    those of these units.
    A Number is an IEEE 754 binary64 value ([spec_float] at precision 53).
    Array lengths, page numbers and page sizes are integral Numbers far
    below 2^53 and are carried as [Z].  The time value of a Date is an
    integral Number or NaN and is carried as [option Z], [None] being
    NaN (an Invalid Date). *)
Module JS.

(** *** Strings *)

(** The units with a lower-case form: A to Z, and U+00C0 to U+00DE
    without the multiplication sign U+00D7. *)
Definition isUpper (c : ascii) : bool :=
  let n := Z.of_nat (nat_of_ascii c) in
  ((65 <=? n) && (n <=? 90))
  || ((192 <=? n) && (n <=? 222) && negb (n =? 215)).

(** The units whose upper-case form is one unit below 256: a to z, and
    U+00E0 to U+00FE without the division sign U+00F7. *)
Definition isLower (c : ascii) : bool :=
  let n := Z.of_nat (nat_of_ascii c) in
  ((97 <=? n) && (n <=? 122))
  || ((224 <=? n) && (n <=? 254) && negb (n =? 247)).

Definition lowerChar (c : ascii) : ascii :=
  if isUpper c then ascii_of_nat (nat_of_ascii c + 32) else c.

Definition upperChar (c : ascii) : ascii :=
  if isLower c then ascii_of_nat (nat_of_ascii c - 32) else c.

(** The upper-case form of one unit: the sharp s U+00DF becomes SS.
    The micro sign U+00B5 and U+00FF have upper-case forms above the
    units of this model and are not in its domain. *)
Definition upperUnits (c : ascii) : string :=
  if Z.of_nat (nat_of_ascii c) =? 223 then "SS"
  else String (upperChar c) EmptyString.

Fixpoint mapString (f : ascii -> ascii) (s : string) : string :=
  match s with
  | EmptyString => EmptyString
  | String c r => String (f c) (mapString f r)
  end.

(** String.prototype.toLowerCase *)
Definition toLowerCase : string -> string := mapString lowerChar.

(** String.prototype.toUpperCase *)
Fixpoint toUpperCase (s : string) : string :=
  match s with
  | EmptyString => EmptyString
  | String c r => upperUnits c ++ toUpperCase r
  end.

(** String.prototype.includes: [q] occurs in [s] as a substring. *)
Fixpoint includes (s q : string) : bool :=
  if String.prefix q s then true
  else match s with
       | EmptyString => false
       | String _ r => includes r q
       end.

(** String.prototype.charAt: the unit at [i], or the empty string. *)
Definition charAt (s : string) (i : nat) : string :=
  match String.get i s with
  | Some c => String c EmptyString
  | None => EmptyString
  end.

(** String.prototype.slice with a start index inside [0, length]. *)
Fixpoint sliceFrom (s : string) (i : nat) : string :=
  match i, s with
  | O, _ => s
  | S j, String _ r => sliceFrom r j
  | S _, EmptyString => EmptyString
  end.

(** Relational comparison of two strings: by code units. *)
Definition String_lt (a b : string) : bool := String.ltb a b.

(** ToBoolean of a value of type [string | undefined]. *)
Definition truthy (v : option string) : bool :=
  match v with
  | Some s => negb (String.eqb s "")
  | None => false
  end.

(** [a || b] where both operands have type [string | undefined]. *)
Definition or_undef (a b : option string) : option string :=
  if truthy a then a else b.

(** [a || d] where [d] is a string literal. *)
Definition or_str (a : option string) (d : string) : string :=
  match a with
  | Some s => if String.eqb s "" then d else s
  | None => d
  end.

(** *** Numbers *)

Definition number : Type := spec_float.
Definition prec : Z := 53.
Definition emax : Z := 1024.

Definition NaN : number := S754_nan.

Definition isNaN (x : number) : bool :=
  match x with S754_nan => true | _ => false end.

(** [x < y] on Numbers: false as soon as one side is NaN. *)
Definition Number_lt (x y : number) : bool := SFltb x y.

Definition Number_mul (x y : number) : number := SFmul prec emax x y.

(** The Number value for an integer. *)
Definition Number_of_Z (z : Z) : number := binary_normalize prec emax z 0 false.

(** The Number value for the ratio [p / q] of two positive integers,
    rounded to nearest, ties to even. *)
Definition Number_of_ratio (neg : bool) (p q : Z) : number :=
  let s := Z.max 0 (Zdigits2 q - Zdigits2 p + 64) in
  let n := p * 2 ^ s in
  let m := n / q in
  let r := n mod q in
  let l := if r =? 0 then loc_Exact else loc_Inexact (Z.compare (2 * r) q) in
  binary_round_aux prec emax neg m (- s) l.

(** The Number value for the decimal [m * 10^e10], [m >= 0]. *)
Definition Number_of_decimal (neg : bool) (m e10 : Z) : number :=
  match m with
  | Z0 => S754_zero neg
  | Zpos _ =>
      if 0 <=? e10
      then binary_normalize prec emax
             ((if neg then - m else m) * 10 ^ e10) 0 false
      else Number_of_ratio neg m (10 ^ (- e10))
  | Zneg _ => NaN
  end.

(** White space and line terminators: space, TAB to CR, and the
    no-break space U+00A0. *)
Definition isWhiteSpace (c : ascii) : bool :=
  let n := Z.of_nat (nat_of_ascii c) in
  (n =? 32) || ((9 <=? n) && (n <=? 13)) || (n =? 160).

Fixpoint trimStart (s : string) : string :=
  match s with
  | String c r => if isWhiteSpace c then trimStart r else s
  | EmptyString => EmptyString
  end.

Definition digitVal (c : ascii) : option Z :=
  let n := Z.of_nat (nat_of_ascii c) in
  if (48 <=? n) && (n <=? 57) then Some (n - 48) else None.

(** Reads the longest run of decimal digits at the head of [s]:
    the accumulated value, the number of digits read and the rest. *)
Fixpoint readDigits (s : string) (acc cnt : Z) : Z * Z * string :=
  match s with
  | String c r =>
      match digitVal c with
      | Some d => readDigits r (10 * acc + d) (cnt + 1)
      | None => (acc, cnt, s)
      end
  | EmptyString => (acc, cnt, s)
  end.

Definition readSign (s : string) : bool * string :=
  match s with
  | String "-" r => (true, r)
  | String "+" r => (false, r)
  | _ => (false, s)
  end.

(** parseFloat: the longest prefix of the trimmed input that is a
    StrDecimalLiteral, NaN when there is none. *)
Definition parseFloat (input : string) : number :=
  let '(neg, s1) := readSign (trimStart input) in
  if String.prefix "Infinity" s1 then S754_infinity neg
  else
    let '(ip, ni, s2) := readDigits s1 0 0 in
    let '(m, nf, s3) :=
      match s2 with
      | String "." r => readDigits r ip 0
      | _ => (ip, 0, s2)
      end in
    if ni + nf =? 0 then NaN
    else
      let ex :=
        match s3 with
        | String c r =>
            if Ascii.eqb c "e" || Ascii.eqb c "E" then
              let '(eneg, r1) := readSign r in
              let '(ev, ne, _) := readDigits r1 0 0 in
              if ne =? 0 then 0 else if eneg then - ev else ev
            else 0
        | EmptyString => 0
        end in
      Number_of_decimal neg m (ex - nf).

(** Decimal digits of a non-negative integer. *)
Definition decimal (n : Z) : string :=
  NilZero.string_of_uint (N.to_uint (Z.to_N n)).

Definition digitChar (d : Z) : ascii := ascii_of_nat (48 + Z.to_nat d).

(** The [k] low decimal digits of [n], zero padded. *)
Fixpoint fixedDigits (k : nat) (n : Z) : string :=
  match k with
  | O => EmptyString
  | S j => fixedDigits j (n / 10) ++ String (digitChar (n mod 10)) EmptyString
  end.

(** [n / 10^f] written in fixed-point notation with [f] fraction digits. *)
Definition fixedPoint (n : Z) (f : nat) : string :=
  decimal (n / 10 ^ Z.of_nat f) ++
  match f with
  | O => EmptyString
  | S _ => "." ++ fixedDigits f n
  end.

(** The integer nearest to [num / den], the larger one on a tie. *)
Definition roundHalfUp (num den : Z) : Z := (2 * num + den) / (2 * den).

(** The integer nearest to [m * 2^e * 10^f], the larger one on a tie. *)
Definition scaledInt (m : positive) (e : Z) (f : nat) : Z :=
  if 0 <=? e then Zpos m * 2 ^ e * 10 ^ Z.of_nat f
  else roundHalfUp (Zpos m * 10 ^ Z.of_nat f) (2 ^ (- e)).

(** [m * 2^e >= 10^21] *)
Definition isLarge (m : positive) (e : Z) : bool :=
  (0 <=? e) && (10 ^ 21 <=? Zpos m * 2 ^ e).

Definition roundTrips (X c d : Z) : bool :=
  SFeqb (Number_of_Z (c * d)) (Number_of_Z X).

(** Searches the least digit count [k] for which some [c * 10^(n-k)]
    has [X] as its Number value; returns [c] and the scale. *)
Fixpoint shortest (X n : Z) (k fuel : nat) : Z * Z :=
  match fuel with
  | O => (X, 1)
  | S g =>
      let d := 10 ^ (n - Z.of_nat k) in
      let lo := X / d in
      let hi := lo + 1 in
      let dlo := X - lo * d in
      let dhi := hi * d - X in
      match roundTrips X lo d, roundTrips X hi d with
      | true, true =>
          if dlo <? dhi then (lo, d)
          else if dhi <? dlo then (hi, d)
          else if Z.even lo then (lo, d) else (hi, d)
      | true, false => (lo, d)
      | false, true => (hi, d)
      | false, false => shortest X n (S k) g
      end
  end.

Fixpoint stripZeros (s : string) : string :=
  match s with
  | EmptyString => EmptyString
  | String c r =>
      match stripZeros r with
      | EmptyString => if Ascii.eqb c "0" then EmptyString else String c EmptyString
      | r' => String c r'
      end
  end.

(** Number::toString for an integral Number [X >= 10^21]: the shortest
    digits that read back as [X], in exponential notation. *)
Definition Number_toString_large (X : Z) : string :=
  let n := Z.of_nat (String.length (decimal X)) in
  let '(c, d) := shortest X n 1 (Z.to_nat n) in
  let ex := Z.of_nat (String.length (decimal (c * d))) - 1 in
  match stripZeros (decimal c) with
  | String c1 EmptyString => String c1 ("e+" ++ decimal ex)
  | String c1 r => String c1 ("." ++ r ++ "e+" ++ decimal ex)
  | EmptyString => EmptyString
  end.

(** Number.prototype.toFixed *)
Definition toFixed (x : number) (f : nat) : string :=
  match x with
  | S754_nan => "NaN"
  | S754_infinity s => if s then "-Infinity" else "Infinity"
  | S754_zero _ => fixedPoint 0 f
  | S754_finite s m e =>
      (if s then "-" else "") ++
      (if isLarge m e then Number_toString_large (Zpos m * 2 ^ e)
       else fixedPoint (scaledInt m e f) f)
  end.

(** *** Arrays *)

(** Array.prototype.slice(start, end): negative indices count from the
    end, both are clamped to the array. *)
Definition slice {A : Type} (l : list A) (start end_ : Z) : list A :=
  let len := Z.of_nat (List.length l) in
  let k := if start <? 0 then Z.max (len + start) 0 else Z.min start len in
  let final := if end_ <? 0 then Z.max (len + end_) 0 else Z.min end_ len in
  firstn (Z.to_nat (final - k)) (skipn (Z.to_nat k) l).

(** Array.prototype.includes over values with a boolean equality. *)
Definition Array_includes {A : Type} (eqb : A -> A -> bool) (l : list A) (x : A) : bool :=
  existsb (eqb x) l.

(** Math.ceil(n / d) for an array length [n] and a page size [d] of
    the select: the binary64 quotient is an integer exactly when [d]
    divides [n] and otherwise lies strictly between the same two
    integers as the exact quotient, so that its ceiling is the integer
    ceiling. *)
Definition ceilDiv (n d : Z) : Z := - ((- n) / d).

(** *** Dates *)

Definition timeValue : Type := option Z.

Definition msPerDay : Z := 86400000.

Definition Day (t : Z) : Z := t / msPerDay.
Definition TimeWithinDay (t : Z) : Z := t mod msPerDay.

Definition MakeTime (h m s ms : Z) : Z := h * 3600000 + m * 60000 + s * 1000 + ms.
Definition MakeDate (day time : Z) : Z := day * msPerDay + time.

Definition TimeClip (t : Z) : timeValue :=
  if Z.abs t <=? 8640000000000000 then Some t else None.

(** [a <= b] and [a >= b] on two Date objects: the comparison of their
    time values, false as soon as one of them is NaN. *)
Definition tv_le (a b : timeValue) : bool :=
  match a, b with Some x, Some y => x <=? y | _, _ => false end.
Definition tv_ge (a b : timeValue) : bool := tv_le b a.

(** Year, month (1..12) and day of month of a day number. *)
Definition civil_of_days (days : Z) : Z * Z * Z :=
  let z := days + 719468 in
  let era := z / 146097 in
  let doe := z - era * 146097 in
  let yoe := (doe - doe / 1460 + doe / 36524 - doe / 146096) / 365 in
  let doy := doe - (365 * yoe + yoe / 4 - yoe / 100) in
  let mp := (5 * doy + 2) / 153 in
  let d := doy - (153 * mp + 2) / 5 + 1 in
  let m := if mp <? 10 then mp + 3 else mp - 9 in
  let y := yoe + era * 400 + (if m <=? 2 then 1 else 0) in
  (y, m, d).

Definition days_of_civil (y m d : Z) : Z :=
  let y' := if m <=? 2 then y - 1 else y in
  let era := y' / 400 in
  let yoe := y' - era * 400 in
  let doy := (153 * (if 2 <? m then m - 3 else m + 9) + 2) / 5 + d - 1 in
  let doe := yoe * 365 + yoe / 4 - yoe / 100 + doy in
  era * 146097 + doe - 719468.

(** Date.prototype.toISOString of a valid time value. *)
Definition toISOString (t : Z) : string :=
  let '(y, m, d) := civil_of_days (Day t) in
  let w := TimeWithinDay t in
  (if (0 <=? y) && (y <=? 9999) then fixedDigits 4 y
   else (if y <? 0 then "-" else "+") ++ fixedDigits 6 (Z.abs y))
  ++ "-" ++ fixedDigits 2 m ++ "-" ++ fixedDigits 2 d
  ++ "T" ++ fixedDigits 2 (w / 3600000)
  ++ ":" ++ fixedDigits 2 (w / 60000 mod 60)
  ++ ":" ++ fixedDigits 2 (w / 1000 mod 60)
  ++ "." ++ fixedDigits 3 (w mod 1000) ++ "Z".

(** [s.split(sep)[0]]: the part of [s] before the first [sep]. *)
Fixpoint splitHead (sep : ascii) (s : string) : string :=
  match s with
  | EmptyString => EmptyString
  | String c r => if Ascii.eqb c sep then EmptyString else String c (splitHead sep r)
  end.

(** What the sources use of the host: date parsing, the local time
    zone adjustment and the en-US formatters of Intl. *)
Class Host : Type := {
  (** the time value of [new Date(s)] *)
  Date_parse : string -> timeValue;
  (** the empty string is not a date *)
  Date_parse_empty : Date_parse "" = None;
  (** LocalTZA(t, isUTC), in milliseconds *)
  LocalTZA : Z -> bool -> Z;
  (** toLocaleString('en-US', month short, day numeric, year numeric,
      hour and minute 2-digit) of a valid time value *)
  dateTimeFormat : Z -> string;
  (** toLocaleString('en-US', 2 to 6 fraction digits) of a Number *)
  numberFormat : number -> string
}.

Section WithHost.
Context {host : Host}.

(** Date.prototype.setHours(h, m, s, ms): the new time value. *)
Definition setHours (tv : timeValue) (h m s ms : Z) : timeValue :=
  match tv with
  | None => None
  | Some t =>
      let tl := t + LocalTZA t true in
      let date := MakeDate (Day tl) (MakeTime h m s ms) in
      TimeClip (date - LocalTZA date false)
  end.
End WithHost.

(** *** A reference host

    Coordinated universal time; Date parsing of the complete
    date-time form [YYYY-MM-DDTHH:mm:ss.sssZ] (what toISOString
    writes), every other string being rejected; the en-US patterns of
    Intl for dates of the common era and for decimal numbers. *)

Definition digits2 (a b : ascii) : option Z :=
  x <- digitVal a ;; y <- digitVal b ;; ret (10 * x + y).

Definition daysInMonth (y m : Z) : Z :=
  (if m =? 12 then days_of_civil (y + 1) 1 1 else days_of_civil y (m + 1) 1)
  - days_of_civil y m 1.

Definition inRange (lo x hi : Z) : option unit :=
  if (lo <=? x) && (x <=? hi) then Some tt else None.

Definition expect (c d : ascii) : option unit :=
  if Ascii.eqb c d then Some tt else None.

(** The time value of a string in the complete date-time form, for a
    day that exists in its month; every other string is not a date
    here. *)
Definition parseISO (s : string) : timeValue :=
  match list_ascii_of_string s with
  | [y1; y2; y3; y4; c1; m1; m2; c2; d1; d2; c3;
     h1; h2; c4; n1; n2; c5; s1; s2; c6; f1; f2; f3; c7] =>
      yh <- digits2 y1 y2 ;; yl <- digits2 y3 y4 ;;
      mo <- digits2 m1 m2 ;; da <- digits2 d1 d2 ;;
      ho <- digits2 h1 h2 ;; mi <- digits2 n1 n2 ;; se <- digits2 s1 s2 ;;
      fh <- digitVal f1 ;; fl <- digits2 f2 f3 ;;
      expect c1 "-" ;; expect c2 "-" ;; expect c3 "T" ;; expect c4 ":" ;;
      expect c5 ":" ;; expect c6 "." ;; expect c7 "Z" ;;
      let y := 100 * yh + yl in
      inRange 1 mo 12 ;; inRange 1 da (daysInMonth y mo) ;;
      inRange 0 ho 23 ;; inRange 0 mi 59 ;; inRange 0 se 59 ;;
      TimeClip (MakeDate (days_of_civil y mo da)
                         (MakeTime ho mi se (100 * fh + fl)))
  | _ => None
  end.

Definition monthShort (m : Z) : string :=
  nth (Z.to_nat (m - 1))
      ["Jan"; "Feb"; "Mar"; "Apr"; "May"; "Jun";
       "Jul"; "Aug"; "Sep"; "Oct"; "Nov"; "Dec"] "".

Definition enUS_dateTime (t : Z) : string :=
  let '(y, m, d) := civil_of_days (Day t) in
  let w := TimeWithinDay t in
  let h := w / 3600000 in
  monthShort m ++ " " ++ decimal d ++ ", " ++ decimal y ++ ", "
  ++ fixedDigits 2 (if h mod 12 =? 0 then 12 else h mod 12)
  ++ ":" ++ fixedDigits 2 (w / 60000 mod 60)
  ++ (if h <? 12 then " AM" else " PM").

Fixpoint grouped (fuel : nat) (n : Z) : string :=
  match fuel with
  | O => decimal n
  | S g => if n <? 1000 then decimal n
           else grouped g (n / 1000) ++ "," ++ fixedDigits 3 n
  end.

(** Digit groups and 2 to 6 fraction digits, the value rounded at
    the sixth fraction digit from its exact binary expansion. *)
Definition enUS_number (x : number) : string :=
  let fmt (neg : bool) (n : Z) :=
    let f := fixedDigits 6 n in
    (if neg then "-" else "")
    ++ grouped (Z.to_nat (Z.log2 (n + 1))) (n / 10 ^ 6) ++ "."
    ++ String.substring 0 2 f ++ stripZeros (sliceFrom f 2) in
  match x with
  | S754_nan => "NaN"
  | S754_infinity s => if s then "-∞" else "∞"
  | S754_zero s => fmt s 0
  | S754_finite s m e => fmt s (scaledInt m e 6)
  end.

Definition utcHost : Host :=
  {| Date_parse := parseISO;
     Date_parse_empty := eq_refl;
     LocalTZA := fun _ _ => 0;
     dateTimeFormat := enUS_dateTime;
     numberFormat := enUS_number |}.

(** Array.prototype.sort with a comparison function.  The sort is
    stable; written here as a left-to-right insertion, which for a
    consistent comparison function yields the one stable result.  For
    a comparison function that is not consistent the order of the
    result is implementation-defined; the result is a permutation of
    the array in every case. *)
Fixpoint insertBy {A : Type} (cmp : A -> A -> Z) (x : A) (l : list A) : list A :=
  match l with
  | [] => [x]
  | y :: r => if cmp x y <? 0 then x :: l else y :: insertBy cmp x r
  end.

Definition Array_sort {A : Type} (cmp : A -> A -> Z) (l : list A) : list A :=
  fold_left (fun acc x => insertBy cmp x acc) l [].

(** parseInt(s, 10): [None] is NaN. *)
Definition parseInt (s : string) : option Z :=
  let '(neg, r) := readSign (trimStart s) in
  let '(v, n, _) := readDigits r 0 0 in
  if n =? 0 then None else Some (if neg then - v else v).

(** The Number carried by a time value (Date.prototype.getTime). *)
Definition Number_of_time (t : timeValue) : number :=
  match t with
  | Some z => Number_of_Z z
  | None => NaN
  end.

(** String.prototype.trim *)
Fixpoint trimEnd (s : string) : string :=
  match s with
  | EmptyString => EmptyString
  | String c r =>
      match trimEnd r with
      | EmptyString => if isWhiteSpace c then EmptyString else String c EmptyString
      | r' => String c r'
      end
  end.

Definition trim (s : string) : string := trimEnd (trimStart s).

(** [s.split(sep)] for a separator of one unit. *)
Fixpoint split (sep : ascii) (s : string) : list string :=
  match s with
  | EmptyString => [EmptyString]
  | String c r =>
      if Ascii.eqb c sep then EmptyString :: split sep r
      else match split sep r with
           | p :: ps => String c p :: ps
           | [] => [String c EmptyString]
           end
  end.

(** [s.replace(/[^...]/g, '')]: the units of [s] that [keep] accepts. *)
Fixpoint filterString (keep : ascii -> bool) (s : string) : string :=
  match s with
  | EmptyString => EmptyString
  | String c r => if keep c then String c (filterString keep r) else filterString keep r
  end.

(** [s.slice(-n)]: the last [n] units of [s]. *)
Definition sliceLast (s : string) (n : nat) : string :=
  sliceFrom s (String.length s - n).

(** Number::toString in radix 10.  For a positive [m * 2^e] the digits
    are the shortest that read back as the same Number, the closest
    ones among those. *)
Definition numDigits (n : Z) : Z := Z.of_nat (String.length (decimal n)).

(** [n] with [10^(n-1) <= num / den < 10^n], for a positive binary64
    ratio. *)
Definition decimalExponent (num den : Z) : Z :=
  numDigits (num * 10 ^ 400 / den) - 400.

Fixpoint shortestDigits (x : number) (num den n : Z) (k fuel : nat) : Z * Z :=
  match fuel with
  | O => (0, 0)
  | S g =>
      let scale := n - Z.of_nat k in
      let P := num * 10 ^ (Z.max 0 (- scale)) in
      let Q := den * 10 ^ (Z.max 0 scale) in
      let lo := P / Q in
      let hi := lo + 1 in
      let dlo := P - lo * Q in
      let dhi := hi * Q - P in
      let back c := SFeqb (Number_of_decimal false c scale) x in
      match back lo, back hi with
      | true, true =>
          if dlo <? dhi then (lo, scale)
          else if dhi <? dlo then (hi, scale)
          else if Z.even lo then (lo, scale) else (hi, scale)
      | true, false => (lo, scale)
      | false, true => (hi, scale)
      | false, false => shortestDigits x num den n (S k) g
      end
  end.

Fixpoint zeros (n : nat) : string :=
  match n with O => EmptyString | S k => String "0" (zeros k) end.

Definition Number_toString_pos (m : positive) (e : Z) : string :=
  let num := if 0 <=? e then Zpos m * 2 ^ e else Zpos m in
  let den := if 0 <=? e then 1 else 2 ^ (- e) in
  let '(c, scale) :=
    shortestDigits (S754_finite false m e) num den (decimalExponent num den) 1 25 in
  let ds := stripZeros (decimal c) in
  let k := Z.of_nat (String.length ds) in
  let n := numDigits c + scale in
  if (k <=? n) && (n <=? 21) then ds ++ zeros (Z.to_nat (n - k))
  else if (0 <? n) && (n <=? 21)
  then String.substring 0 (Z.to_nat n) ds ++ "." ++ sliceFrom ds (Z.to_nat n)
  else if (-6 <? n) && (n <=? 0) then "0." ++ zeros (Z.to_nat (- n)) ++ ds
  else
    let ex := (if n - 1 <? 0 then "-" else "+") ++ decimal (Z.abs (n - 1)) in
    match ds with
    | String c1 EmptyString => String c1 ("e" ++ ex)
    | String c1 r => String c1 ("." ++ r ++ "e" ++ ex)
    | EmptyString => EmptyString
    end.

Definition Number_toString (x : number) : string :=
  match x with
  | S754_nan => "NaN"
  | S754_zero _ => "0"
  | S754_infinity s => if s then "-Infinity" else "Infinity"
  | S754_finite s m e => (if s then "-" else "") ++ Number_toString_pos m e
  end.

(** YearFromTime *)
Definition YearFromTime (t : Z) : Z := fst (fst (civil_of_days (Day t))).

End JS.

(** ** types/transaction.ts *)
Module Types.

Inductive TransactionStatus : Type := PENDING | CONFIRMED | FAILED.

(** The string each member of the enumeration stands for. *)
Definition statusValue (s : TransactionStatus) : string :=
  match s with
  | PENDING => "pending"
  | CONFIRMED => "confirmed"
  | FAILED => "failed"
  end.

Definition status_eqb (a b : TransactionStatus) : bool :=
  match a, b with
  | PENDING, PENDING | CONFIRMED, CONFIRMED | FAILED, FAILED => true
  | _, _ => false
  end.

(** Optional members are [None] when undefined. *)
Record Transaction : Type := mkTransaction {
  _id : option string;
  id : option string;
  hash : string;
  fromAddress : string;
  toAddress : string;
  amount : string;
  status : TransactionStatus;
  gasLimit : option string;
  gasPrice : option string;
  timestamp : option string;
  createdAt : option string;
  updatedAt : option string
}.

(** The place of a status in the order of the status strings:
    confirmed, failed, pending. *)
Definition statusRank (s : TransactionStatus) : Z :=
  match s with
  | CONFIRMED => 0
  | FAILED => 1
  | PENDING => 2
  end.

Inductive SortField : Type := SF_timestamp | SF_amount | SF_status.
Inductive SortDirection : Type := asc | desc.

End Types.

(** ** lib/utils/format.ts *)
Module Format.

(** The argument of formatFullDate: a string or a Date object. *)
Inductive DateInput : Type :=
| DateString (s : string)
| DateObject (t : JS.timeValue).

Section WithHost.
Context {host : JS.Host}.

(** [symbol] is [None] when the argument is omitted. *)
Definition formatAmount (amount : string) (symbol : option string) : string :=
  let symbol := match symbol with Some s => s | None => "ETH" end in
  let num := JS.parseFloat amount in
  if JS.isNaN num then "0 ${symbol}"
  else JS.numberFormat num ++ " " ++ symbol.

Definition formatFullDate (timestamp : option DateInput) : string :=
  match timestamp with
  | None => "N/A"
  | Some (DateString EmptyString) => "N/A"
  | Some i =>
      let date := match i with
                  | DateString s => JS.Date_parse s
                  | DateObject t => t
                  end in
      match date with
      | None => "N/A"
      | Some t => JS.dateTimeFormat t
      end
  end.
End WithHost.
(** Truncate Ethereum address (show first 6 and last 4 chars) *)
Definition truncateAddress (address : string) : string :=
  if String.eqb address "" || (Z.of_nat (String.length address) <? 10) then address
  else String.substring 0 6 address ++ "..." ++ JS.sliceLast address 4.

Definition isHexDigit (c : ascii) : bool :=
  let n := Z.of_nat (nat_of_ascii c) in
  ((48 <=? n) && (n <=? 57)) || ((97 <=? n) && (n <=? 102))
  || ((65 <=? n) && (n <=? 70)).

Definition isUpperHex (c : ascii) : bool :=
  let n := Z.of_nat (nat_of_ascii c) in (65 <=? n) && (n <=? 70).

Fixpoint allChars (p : ascii -> bool) (s : string) : bool :=
  match s with
  | EmptyString => true
  | String c r => p c && allChars p r
  end.

Fixpoint anyChar (p : ascii -> bool) (s : string) : bool :=
  match s with
  | EmptyString => false
  | String c r => p c || anyChar p r
  end.

(** [/^0x[a-fA-F0-9]{40}$/.test(s)] *)
Definition matchesAddress (s : string) : bool :=
  match s with
  | String "0" (String "x" r) =>
      Nat.eqb (String.length r) 40 && allChars isHexDigit r
  | _ => false
  end.

(** Validate Ethereum address checksum according to EIP-55 *)
Definition isValidChecksumAddress (address : string) : bool :=
  matchesAddress address.

(** Get detailed validation error message for Ethereum address;
    [None] is null. *)
Definition getEthereumAddressError (address : string) : option string :=
  if String.eqb address "" then Some "Address is required"
  else
    let trimmed := JS.trim address in
    if Nat.eqb (String.length trimmed) 0 then Some "Address is required"
    else if negb (String.prefix "0x" trimmed) then Some "Address must start with 0x"
    else if Z.of_nat (String.length trimmed) <? 42
    then Some "Address is too short. Must be 42 characters (0x + 40 hex characters)"
    else if 42 <? Z.of_nat (String.length trimmed)
    then Some "Address is too long. Must be 42 characters (0x + 40 hex characters)"
    else if negb (matchesAddress trimmed)
    then Some "Address contains invalid characters. Must be hexadecimal (0-9, a-f, A-F)"
    else if anyChar isUpperHex trimmed && negb (isValidChecksumAddress trimmed)
    then Some "Invalid checksum. Please use a valid checksummed address or lowercase address"
    else None.

Section WithHostAndClock.
Context {host : JS.Host}.

(** [toLocaleDateString('en-US', ...)] of a valid time value, with
    month short and day numeric, the year being shown when the flag
    is set. *)
Variable toLocaleDateString : Z -> bool -> string.

(** Format timestamp to readable format; [now] is the time value of
    [new Date()]. *)
Definition formatTimestamp (now : Z) (timestamp : option DateInput) : string :=
  match timestamp with
  | None => "N/A"
  | Some (DateString EmptyString) => "N/A"
  | Some i =>
      let date := match i with
                  | DateString s => JS.Date_parse s
                  | DateObject t => t
                  end in
      match date with
      | None => "N/A"
      | Some t =>
          let diffMs := now - t in
          let diffMins := diffMs / (60 * 1000) in
          let diffHours := diffMs / (60 * 60 * 1000) in
          let diffDays := diffMs / (24 * 60 * 60 * 1000) in
          if diffMins <? 1 then "Just now"
          else if diffMins <? 60
          then JS.decimal diffMins ++ " minute" ++ (if 1 <? diffMins then "s" else "") ++ " ago"
          else if diffHours <? 24
          then JS.decimal diffHours ++ " hour" ++ (if 1 <? diffHours then "s" else "") ++ " ago"
          else if diffDays <? 7
          then JS.decimal diffDays ++ " day" ++ (if 1 <? diffDays then "s" else "") ++ " ago"
          else
            toLocaleDateString t
              (negb (JS.YearFromTime (t + JS.LocalTZA t true)
                     =? JS.YearFromTime (now + JS.LocalTZA now true)))
      end
  end.

(** Calculate transaction fee; [symbol] is [None] when omitted. *)
Definition calculateFee (gasLimit gasPrice symbol : option string) : string :=
  let symbol := match symbol with Some s => s | None => "ETH" end in
  if negb (JS.truthy gasLimit) || negb (JS.truthy gasPrice) then "0 " ++ symbol
  else
    (* past the guard both arguments are non-empty strings *)
    let limit := JS.parseFloat (JS.or_str gasLimit "") in
    let price := JS.parseFloat (JS.or_str gasPrice "") in
    if JS.isNaN limit || JS.isNaN price then "0 " ++ symbol
    else
      let fee := JS.Number_mul limit price in
      formatAmount (JS.Number_toString fee) (Some symbol).
End WithHostAndClock.
End Format.

(** ** lib/utils/export.ts *)
Module ExportXLSX.
Import Types.

(** An object literal with string members, in insertion order. *)
Definition Row : Type := list (string * string).

(** The SheetJS objects the export touches.  A workbook refers to its
    sheets, so a worksheet changed after it was appended is the one
    that is written. *)
Record Worksheet : Type := mkWorksheet {
  ws_data : list Row;
  ws_cols : list Z
}.

Record World : Type := mkWorld {
  worksheets : list Worksheet;
  workbooks : list (list (string * nat));
  files : list (string * list (string * Worksheet))
}.

Definition emptyWorld : World := mkWorld [] [] [].

Fixpoint updateNth {A : Type} (n : nat) (f : A -> A) (l : list A) : list A :=
  match n, l with
  | _, [] => []
  | O, x :: r => f x :: r
  | S k, x :: r => x :: updateNth k f r
  end.

(** XLSX.utils.json_to_sheet *)
Definition json_to_sheet (data : list Row) : state World nat :=
  w <- get ;;
  put (mkWorld (worksheets w ++ [mkWorksheet data []])%list (workbooks w) (files w)) ;;
  ret (List.length (worksheets w)).

(** XLSX.utils.book_new *)
Definition book_new : state World nat :=
  w <- get ;;
  put (mkWorld (worksheets w) (workbooks w ++ [[]])%list (files w)) ;;
  ret (List.length (workbooks w)).

(** XLSX.utils.book_append_sheet *)
Definition book_append_sheet (wb ws : nat) (name : string) : state World unit :=
  w <- get ;;
  put (mkWorld (worksheets w)
               (updateNth wb (fun sheets => (sheets ++ [(name, ws)])%list) (workbooks w))
               (files w)).

(** [worksheet['!cols'] = widths] *)
Definition set_cols (ws : nat) (widths : list Z) : state World unit :=
  w <- get ;;
  put (mkWorld (updateNth ws (fun s => mkWorksheet (ws_data s) widths) (worksheets w))
               (workbooks w) (files w)).

(** XLSX.writeFile *)
Definition writeFile (wb : nat) (filename : string) : state World unit :=
  w <- get ;;
  let sheets :=
    map (fun '(name, ws) => (name, nth ws (worksheets w) (mkWorksheet [] [])))
        (nth wb (workbooks w) []) in
  put (mkWorld (worksheets w) (workbooks w) (files w ++ [(filename, sheets)])%list).

Section WithHost.
Context {host : JS.Host}.

(** The object built for one transaction by the [map] callback. *)
Definition exportRow (tx : Transaction) : Row :=
  [ ("Transaction Hash", hash tx);
    ("From Address", fromAddress tx);
    ("To Address", toAddress tx);
    ("Amount (ETH)", JS.toFixed (JS.parseFloat (amount tx)) 6);
    ("Status",
      JS.toUpperCase (JS.charAt (statusValue (status tx)) 0)
      ++ JS.sliceFrom (statusValue (status tx)) 1);
    ("Gas Limit", JS.or_str (gasLimit tx) "N/A");
    ("Gas Price (ETH)", JS.or_str (gasPrice tx) "N/A");
    ("Transaction Fee (ETH)",
      (* in the first branch both members are non-empty strings *)
      if JS.truthy (gasLimit tx) && JS.truthy (gasPrice tx)
      then JS.toFixed
             (JS.Number_mul (JS.parseFloat (JS.or_str (gasLimit tx) ""))
                            (JS.parseFloat (JS.or_str (gasPrice tx) ""))) 8
      else "0");
    ("Timestamp",
      Format.formatFullDate
        (option_map Format.DateString (JS.or_undef (timestamp tx) (createdAt tx))));
    ("Date", JS.or_str (JS.or_undef (timestamp tx) (createdAt tx)) "N/A") ].

Definition columnWidths : list Z := [20; 42; 42; 15; 12; 12; 18; 18; 20; 25].

(** [filename] is [None] when the argument is omitted. *)
Definition exportTransactionsToXLSX
    (transactions : list Transaction) (filename : option string) : state World unit :=
  let filename := match filename with Some f => f | None => "transactions.xlsx" end in
  let exportData := map exportRow transactions in
  worksheet <- json_to_sheet exportData ;;
  workbook <- book_new ;;
  book_append_sheet workbook worksheet "Transactions" ;;
  set_cols worksheet columnWidths ;;
  writeFile workbook filename.
End WithHost.
End ExportXLSX.

(** ** app/transactions/page.tsx *)
Module Page.
Import Types.
Section WithHost.
Context {host : JS.Host}.

(** [new Date(tx.timestamp || tx.createdAt || '')] *)
Definition txDate (tx : Transaction) : JS.timeValue :=
  JS.Date_parse (JS.or_str (JS.or_undef (timestamp tx) (createdAt tx)) "").

(** The filter state of the page; a date bound is [None] when null,
    and holds the time value of the Date object otherwise. *)
Definition filteredTransactions
    (transactions : list Transaction)
    (selectedStatuses : list TransactionStatus)
    (dateFrom dateTo : option JS.timeValue)
    (searchQuery : string) : list Transaction :=
  let filtered := transactions in
  (* Status filter (multi-select) *)
  let filtered :=
    if 0 <? Z.of_nat (List.length selectedStatuses)
    then filter (fun tx => JS.Array_includes status_eqb selectedStatuses (status tx))
                filtered
    else filtered in
  (* Date range filter *)
  let filtered :=
    match dateFrom with
    | Some from => filter (fun tx => JS.tv_ge (txDate tx) from) filtered
    | None => filtered
    end in
  let filtered :=
    match dateTo with
    | Some to =>
        filter (fun tx =>
                  let toDate := JS.setHours to 23 59 59 999 in
                  JS.tv_le (txDate tx) toDate)
               filtered
    | None => filtered
    end in
  (* Search filter *)
  let filtered :=
    if negb (String.eqb searchQuery "")
    then
      let query := JS.toLowerCase searchQuery in
      filter (fun tx =>
                JS.includes (JS.toLowerCase (hash tx)) query
                || JS.includes (JS.toLowerCase (fromAddress tx)) query
                || JS.includes (JS.toLowerCase (toAddress tx)) query)
             filtered
    else filtered in
  filtered.

(** State of the page component that feeds the filter. *)
Record State : Type := mkState {
  transactions : list Transaction;
  selectedStatuses : list TransactionStatus;
  dateFrom : option JS.timeValue;
  dateTo : option JS.timeValue;
  searchQuery : string
}.

Definition initial : State := mkState [] [] None None "".

Definition filtered (s : State) : list Transaction :=
  filteredTransactions (transactions s) (selectedStatuses s)
                       (dateFrom s) (dateTo s) (searchQuery s).

Definition handleClearFilters (s : State) : State :=
  mkState (transactions s) [] None None "".
End WithHost.
End Page.

(** ** components/transactions/TransactionList.tsx *)
Module TransactionList.
Import Types.

(** The two kinds of value the comparator's [switch] assigns. *)
Inductive sortKey : Type :=
| KNumber (x : JS.number)
| KString (s : string).

(** [a < b] and [a > b] on two keys of the same kind (the [switch]
    always assigns both keys in the same branch). *)
Definition key_lt (a b : sortKey) : bool :=
  match a, b with
  | KNumber x, KNumber y => JS.Number_lt x y
  | KString x, KString y => JS.String_lt x y
  | _, _ => false
  end.

Definition key_gt (a b : sortKey) : bool := key_lt b a.

(** Component state. *)
Record State : Type := mkState {
  sortField : SortField;
  sortDirection : SortDirection;
  currentPage : Z;
  itemsPerPage : Z
}.

Definition initial : State := mkState SF_timestamp desc 1 15.

Definition setCurrentPage (p : Z) (st : State) : State :=
  mkState (sortField st) (sortDirection st) p (itemsPerPage st).

Section WithHost.
Context {host : JS.Host}.

(** The value the [switch] assigns for a sort field. *)
Definition sortValue (field : SortField) (tx : Transaction) : sortKey :=
  match field with
  | SF_timestamp =>
      KNumber (JS.Number_of_time
                 (JS.Date_parse
                    (JS.or_str (JS.or_undef (timestamp tx) (createdAt tx)) "")))
  | SF_amount => KNumber (JS.parseFloat (amount tx))
  | SF_status => KString (statusValue (status tx))
  end.

(** The comparison function handed to [sort]. *)
Definition compareFn (field : SortField) (direction : SortDirection)
                     (a b : Transaction) : Z :=
  let aValue := sortValue field a in
  let bValue := sortValue field b in
  if key_lt aValue bValue then match direction with asc => -1 | desc => 1 end
  else if key_gt aValue bValue then match direction with asc => 1 | desc => -1 end
  else 0.

Definition sortedTransactions (transactions : list Transaction)
    (field : SortField) (direction : SortDirection) : list Transaction :=
  JS.Array_sort (compareFn field direction) transactions.
End WithHost.

(** Pagination *)
Definition totalPages (sortedTransactions : list Transaction) (itemsPerPage : Z) : Z :=
  JS.ceilDiv (Z.of_nat (List.length sortedTransactions)) itemsPerPage.

Definition startIndex (currentPage itemsPerPage : Z) : Z :=
  (currentPage - 1) * itemsPerPage.

Definition endIndex (currentPage itemsPerPage : Z) : Z :=
  startIndex currentPage itemsPerPage + itemsPerPage.

Definition paginatedTransactions (sortedTransactions : list Transaction)
    (currentPage itemsPerPage : Z) : list Transaction :=
  JS.slice sortedTransactions
           (startIndex currentPage itemsPerPage)
           (endIndex currentPage itemsPerPage).

(** The effect keyed on [transactions.length, itemsPerPage]: it runs
    when one of the two differs from the previous render. *)
Definition resetEffect (prev cur : Z * Z) (st : State) : State :=
  if (fst prev =? fst cur) && (snd prev =? snd cur) then st
  else setCurrentPage 1 st.

(** The options of the page-size select. *)
Inductive PageSizeOption : Type := Opt10 | Opt15 | Opt20.

Definition optionValue (o : PageSizeOption) : string :=
  match o with Opt10 => "10" | Opt15 => "15" | Opt20 => "20" end.

(** [parseInt(value, 10)] of an option of the select. *)
Definition pageSize (o : PageSizeOption) : Z :=
  match JS.parseInt (optionValue o) with Some n => n | None => 0 end.

Definition handleItemsPerPageChange (o : PageSizeOption) (st : State) : State :=
  let newItemsPerPage := pageSize o in
  mkState (sortField st) (sortDirection st) 1 newItemsPerPage.

Definition sortField_eqb (a b : SortField) : bool :=
  match a, b with
  | SF_timestamp, SF_timestamp | SF_amount, SF_amount | SF_status, SF_status => true
  | _, _ => false
  end.

Definition handleSort (field : SortField) (st : State) : State :=
  if sortField_eqb (sortField st) field
  then mkState (sortField st)
               (match sortDirection st with asc => desc | desc => asc end)
               1 (itemsPerPage st)
  else mkState field desc 1 (itemsPerPage st).

(** The Previous and Next buttons. *)
Definition previous (st : State) : State :=
  setCurrentPage (Z.max 1 (currentPage st - 1)) st.

Definition next (totalPages : Z) (st : State) : State :=
  setCurrentPage (Z.min totalPages (currentPage st + 1)) st.

(** The number shown on the [i]-th page button, [0 <= i < min 5 totalPages]. *)
Definition pageNum (totalPages currentPage i : Z) : Z :=
  if totalPages <=? 5 then i + 1
  else if currentPage <=? 3 then i + 1
  else if totalPages - 2 <=? currentPage then totalPages - 4 + i
  else currentPage - 2 + i.
(** The numbers on the page buttons, left to right:
    [[...Array(Math.min(5, totalPages))].map((_, i) => pageNum)]. *)
Definition pageButtons (totalPages currentPage : Z) : list Z :=
  map (fun i => pageNum totalPages currentPage (Z.of_nat i))
      (seq 0 (Z.to_nat (Z.min 5 totalPages))).

(** The range of the header: Showing [fst]-[snd] of [n]. *)
Definition showingRange (sortedTransactions : list Transaction)
    (currentPage itemsPerPage : Z) : Z * Z :=
  (startIndex currentPage itemsPerPage + 1,
   Z.min (endIndex currentPage itemsPerPage)
         (Z.of_nat (List.length sortedTransactions))).
End TransactionList.

(** ** components/transactions/InlineFilters.tsx *)
Module InlineFilters.
Import Types.

Definition ALL_STATUSES : list TransactionStatus := [PENDING; CONFIRMED; FAILED].

(** The list handed to [onStatusChange] when a status box is toggled. *)
Definition handleStatusToggle (selectedStatuses : list TransactionStatus)
                              (status : TransactionStatus) : list TransactionStatus :=
  if JS.Array_includes status_eqb selectedStatuses status
  then filter (fun s => negb (status_eqb s status)) selectedStatuses
  else (selectedStatuses ++ [status])%list.

(** The list handed to [onStatusChange] by the All Status box. *)
Definition handleSelectAll (selectedStatuses : list TransactionStatus)
    : list TransactionStatus :=
  if Nat.eqb (List.length selectedStatuses) (List.length ALL_STATUSES)
  then []
  else ALL_STATUSES.

Section WithHost.
Context {host : JS.Host}.

(** [now] is the time value of [new Date()] at the click. *)
Definition handleExport (now : Z) (transactions : list Transaction)
    : state ExportXLSX.World unit :=
  if Nat.eqb (List.length transactions) 0 then ret tt
  else
    let timestamp := JS.splitHead "T" (JS.toISOString now) in
    ExportXLSX.exportTransactionsToXLSX
      transactions (Some ("transactions-" ++ timestamp ++ ".xlsx")).
End WithHost.
Definition statusLabel (s : TransactionStatus) : string :=
  match s with
  | PENDING => "Pending"
  | CONFIRMED => "Confirmed"
  | FAILED => "Failed"
  end.

Definition hasActiveFilters (selectedStatuses : list TransactionStatus)
    (dateFrom dateTo : option JS.timeValue) : bool :=
  (0 <? Z.of_nat (List.length selectedStatuses))
  || match dateFrom with Some _ => true | None => false end
  || match dateTo with Some _ => true | None => false end.

Definition allSelected (selectedStatuses : list TransactionStatus) : bool :=
  Nat.eqb (List.length selectedStatuses) (List.length ALL_STATUSES).

Definition noneSelected (selectedStatuses : list TransactionStatus) : bool :=
  Nat.eqb (List.length selectedStatuses) 0.

Definition getStatusLabel (selectedStatuses : list TransactionStatus) : string :=
  if noneSelected selectedStatuses then "Status"
  else if allSelected selectedStatuses then "All Status"
  else if Nat.eqb (List.length selectedStatuses) 1
  then match selectedStatuses with
       | s :: _ =>
           match find (fun v => status_eqb v s) ALL_STATUSES with
           | Some v => statusLabel v
           | None => "Status"
           end
       | [] => "Status"
       end
  else JS.decimal (Z.of_nat (List.length selectedStatuses)) ++ " Selected".

(** The selections the status boxes can produce from the empty one. *)
Inductive selectable : list TransactionStatus -> Prop :=
| selectable_none : selectable []
| selectable_toggle sel s : selectable sel -> selectable (handleStatusToggle sel s)
| selectable_all sel : selectable sel -> selectable (handleSelectAll sel).
End InlineFilters.

(** ** components/transactions/CreateTransactionForm.tsx *)
Module CreateTransactionForm.

(** The class [0-9]. *)
Definition isDigitChar (c : ascii) : bool :=
  let n := Z.of_nat (nat_of_ascii c) in (48 <=? n) && (n <=? 57).

(** The class [0-9.]. *)
Definition isNumericChar (c : ascii) : bool :=
  isDigitChar c || Ascii.eqb c ".".

(** The sign bit of a Number that is not NaN is clear. *)
Definition nonNegative (x : JS.number) : bool :=
  match x with
  | S754_zero s | S754_infinity s | S754_finite s _ _ => negb s
  | S754_nan => false
  end.

(** Handler to allow only numeric input (no negative numbers): the
    value it hands to [setValue]. *)
Definition handleNumericInput (value : string) : string :=
  let value := JS.filterString isNumericChar value in
  let parts := JS.split "." value in
  let value :=
    if 2 <? Z.of_nat (List.length parts)
    then nth 0 parts "" ++ "." ++ String.concat "" (tl parts)
    else value in
  let value := JS.filterString (fun c => negb (Ascii.eqb c "-")) value in
  value.

End CreateTransactionForm.

(** ** hooks/use-debounce *)
Module UseDebounce.

(** Modelled from the spec: the hook useDebounce (hooks/use-debounce)
    is missing from the sources.  Per the specification it holds the
    value last propagated and a single cancellable timer: a new input
    value cancels the pending timer and replaces it by one that is due
    [delay] milliseconds later, and the timer, once due, stores its
    value as the debounced one. *)
Record State : Type := mkState {
  debounced : string;
  pending : option (Z * string)
}.

(** Modelled from the spec: the hook before any input, with nothing
    pending. *)
Definition initial (value : string) : State := mkState value None.

(** Modelled from the spec: a new input value at time [now] cancels
    the pending timer and starts one due [delay] ms later. *)
Definition input (delay now : Z) (value : string) (d : State) : State :=
  mkState (debounced d) (Some (now + delay, value)).

(** Modelled from the spec: the timer that has run its full window by
    time [now], if any. *)
Definition due (now : Z) (d : State) : option (Z * string) :=
  match pending d with
  | Some (deadline, value) =>
      if deadline <=? now then Some (deadline, value) else None
  | None => None
  end.

(** Modelled from the spec: a due timer stores its value as the
    debounced one and is gone. *)
Definition expire (now : Z) (d : State) : State :=
  match due now d with
  | Some (_, value) => mkState value None
  | None => d
  end.
End UseDebounce.

(** ** components/transactions/SearchBar.tsx *)
Module SearchBar.

Record State : Type := mkState {
  searchQuery : string;
  debounce : UseDebounce.State
}.

Definition debouncedSearch (s : State) : string :=
  UseDebounce.debounced (debounce s).

(** A call [onSearchChange(value)], with the time it is made at. *)
Definition Propagation : Type := (Z * string)%type.

(** First render: the effect on [debouncedSearch] runs once. *)
Definition mount (now : Z) : State * list Propagation :=
  (mkState "" (UseDebounce.initial ""), [(now, "")]).

(** The render caused by the timer of the hook: the effect runs when
    [debouncedSearch] has changed. *)
Definition onTimer (now : Z) (s : State) : State * list Propagation :=
  match UseDebounce.due now (debounce s) with
  | Some (deadline, value) =>
      (mkState (searchQuery s) (UseDebounce.expire now (debounce s)),
       if String.eqb value (debouncedSearch s) then [] else [(deadline, value)])
  | None => (s, [])
  end.

(** [onChange] of the input. *)
Definition onChange (now : Z) (value : string) (s : State) : State * list Propagation :=
  (mkState value (UseDebounce.input 300 now value (debounce s)), []).

(** The clear button. *)
Definition handleClear (now : Z) (s : State) : State * list Propagation :=
  (mkState "" (UseDebounce.input 300 now "" (debounce s)), [(now, "")]).

Inductive Event : Type :=
| Key (value : string)
| Clear.


(** One user event at time [fst ev]; a timer that is due by then
    fires first. *)
Definition step (s : State) (ev : Z * Event) : State * list Propagation :=
  let '(s1, l1) := onTimer (fst ev) s in
  let '(s2, l2) := match snd ev with
                   | Key v => onChange (fst ev) v s1
                   | Clear => handleClear (fst ev) s1
                   end in
  (s2, (l1 ++ l2)%list).

Fixpoint run (events : list (Z * Event)) (s : State) : State * list Propagation :=
  match events with
  | [] => (s, [])
  | ev :: rest =>
      let '(s1, l1) := step s ev in
      let '(s2, l2) := run rest s1 in
      (s2, (l1 ++ l2)%list)
  end.

(** The propagations made up to time [T], the events included. *)
Definition propagations (events : list (Z * Event)) (T : Z) (s : State) : list Propagation :=
  let '(s1, l1) := run events s in
  (l1 ++ snd (onTimer T s1))%list.

(** Events in chronological order, none before time [t]. *)
Fixpoint chronological (t : Z) (events : list (Z * Event)) : Prop :=
  match events with
  | [] => True
  | ev :: rest => t <= fst ev /\ chronological (fst ev) rest
  end.
End SearchBar.

(** ** The view: page state, list state and the intents that change them

    The state of TransactionsPage that feeds the filter and the state
    of TransactionList, changed by the events of the controls that are
    rendered and enabled.  A render and the page-reset effect it
    triggers are taken as one step.  The loading and error flags of
    the page are left out: a load is its successful outcome. *)
Module View.
Import Types.

Record State : Type := mkState {
  pageState : Page.State;
  listState : TransactionList.State
}.

Definition initial : State := mkState Page.initial TransactionList.initial.

Inductive Intent : Type :=
| Loaded (data : list Transaction)
| StatusToggle (status : TransactionStatus)
| SelectAll
| DateFromPicked (date : option JS.timeValue)
| DateToPicked (date : option JS.timeValue)
| ClearFilters
| SearchChanged (query : string)
| Sort (field : SortField)
| ItemsPerPage (o : TransactionList.PageSizeOption)
| Previous
| Next
| PageButton (i : Z).

Definition setStatuses (l : list TransactionStatus) (p : Page.State) : Page.State :=
  Page.mkState (Page.transactions p) l (Page.dateFrom p) (Page.dateTo p) (Page.searchQuery p).

Section WithHost.
Context {host : JS.Host}.

(** What the list component derives on a render. *)
Definition rows (v : State) : list Transaction :=
  TransactionList.sortedTransactions
    (Page.filtered (pageState v))
    (TransactionList.sortField (listState v))
    (TransactionList.sortDirection (listState v)).

Definition totalPages (v : State) : Z :=
  TransactionList.totalPages (rows v) (TransactionList.itemsPerPage (listState v)).

Definition visibleRows (v : State) : list Transaction :=
  TransactionList.paginatedTransactions
    (rows v)
    (TransactionList.currentPage (listState v))
    (TransactionList.itemsPerPage (listState v)).

(** The dependencies of the page-reset effect. *)
Definition deps (v : State) : Z * Z :=
  (Z.of_nat (List.length (Page.filtered (pageState v))),
   TransactionList.itemsPerPage (listState v)).

(** The control an intent comes from is rendered and not disabled. *)
Definition enabled (v : State) (i : Intent) : bool :=
  match i with
  | Sort _ => negb (Nat.eqb (List.length (rows v)) 0)
  | ItemsPerPage _ => 1 <? totalPages v
  | Previous =>
      (1 <? totalPages v) && negb (TransactionList.currentPage (listState v) =? 1)
  | Next =>
      (1 <? totalPages v)
      && negb (TransactionList.currentPage (listState v) =? totalPages v)
  | PageButton i =>
      (1 <? totalPages v) && (0 <=? i) && (i <? Z.min 5 (totalPages v))
  | _ => true
  end.

(** The state setters an intent runs. *)
Definition handle (v : State) (i : Intent) : State :=
  let p := pageState v in
  let l := listState v in
  match i with
  | Loaded data =>
      mkState (Page.mkState data (Page.selectedStatuses p) (Page.dateFrom p)
                            (Page.dateTo p) (Page.searchQuery p)) l
  | StatusToggle s =>
      mkState (setStatuses (InlineFilters.handleStatusToggle
                              (Page.selectedStatuses p) s) p) l
  | SelectAll =>
      mkState (setStatuses (InlineFilters.handleSelectAll
                              (Page.selectedStatuses p)) p) l
  | DateFromPicked d =>
      mkState (Page.mkState (Page.transactions p) (Page.selectedStatuses p) d
                            (Page.dateTo p) (Page.searchQuery p)) l
  | DateToPicked d =>
      mkState (Page.mkState (Page.transactions p) (Page.selectedStatuses p)
                            (Page.dateFrom p) d (Page.searchQuery p)) l
  | ClearFilters => mkState (Page.handleClearFilters p) l
  | SearchChanged q =>
      mkState (Page.mkState (Page.transactions p) (Page.selectedStatuses p)
                            (Page.dateFrom p) (Page.dateTo p) q) l
  | Sort f => mkState p (TransactionList.handleSort f l)
  | ItemsPerPage o => mkState p (TransactionList.handleItemsPerPageChange o l)
  | Previous => mkState p (TransactionList.previous l)
  | Next => mkState p (TransactionList.next (totalPages v) l)
  | PageButton k =>
      mkState p (TransactionList.setCurrentPage
                   (TransactionList.pageNum (totalPages v)
                      (TransactionList.currentPage l) k) l)
  end.

(** An intent, followed by the page-reset effect of the render it
    causes. *)
Definition step (v : State) (i : Intent) : State :=
  if enabled v i then
    let v' := handle v i in
    mkState (pageState v') (TransactionList.resetEffect (deps v) (deps v') (listState v'))
  else v.

Definition run (v : State) (intents : list Intent) : State :=
  fold_left step intents v.

(** The states the view can be in. *)
Inductive reachable : State -> Prop :=
| reachable_initial : reachable initial
| reachable_step v i : reachable v -> reachable (step v i).
(** The page invariant of the view: the current page lies in
    [1, max(1, totalPages)] and the page size is one of the
    options of the select. *)
Definition pageInRange (v : State) : Prop :=
  1 <= TransactionList.currentPage (listState v) <= Z.max 1 (totalPages v)
  /\ (TransactionList.itemsPerPage (listState v) = 10
      \/ TransactionList.itemsPerPage (listState v) = 15
      \/ TransactionList.itemsPerPage (listState v) = 20).
End WithHost.
End View.

(** ** The specification's wording of the pipeline

    What the specification says, as definitions of their own, to be
    compared with the ones above, which are written after the sources. *)
Module Spec.
Import Types.

(** A member is absent when it is undefined or the empty string. *)
Definition present (v : option string) : option string :=
  match v with
  | Some EmptyString => None
  | _ => v
  end.

(** totalPages = max(1, ceil(n / itemsPerPage)) *)
Definition totalPages (n itemsPerPage : Z) : Z :=
  Z.max 1 (JS.ceilDiv n itemsPerPage).

(** The elements of [l] whose index lies in [[lo, hi)], the head of
    [l] having index [i]. *)
Fixpoint indexRange {A : Type} (l : list A) (i lo hi : Z) : list A :=
  match l with
  | [] => []
  | x :: r =>
      if (lo <=? i) && (i <? hi) then x :: indexRange r (i + 1) lo hi
      else indexRange r (i + 1) lo hi
  end.

(** A decimal numeral with exactly [f] fraction digits. *)
Fixpoint allDigits (s : string) : bool :=
  match s with
  | EmptyString => true
  | String c r =>
      match JS.digitVal c with Some _ => allDigits r | None => false end
  end.

(** The units a decimal numeral is written with. *)
Definition numeralChar (c : ascii) : bool :=
  match JS.digitVal c with
  | Some _ => true
  | None => Ascii.eqb c "-" || Ascii.eqb c "."
  end.

Definition fixedDecimal (f : nat) (s : string) : Prop :=
  exists sign int frac,
    s = sign ++ int ++ "." ++ frac
    /\ (sign = "" \/ sign = "-")
    /\ int <> "" /\ allDigits int = true
    /\ allDigits frac = true /\ String.length frac = f.

(** A Number that toFixed writes in fixed-point notation: finite and
    below 10^21 in magnitude. *)
Definition plain (x : JS.number) : bool :=
  match x with
  | S754_zero _ => true
  | S754_finite _ m e => negb (JS.isLarge m e)
  | _ => false
  end.

Definition capitalized (s : TransactionStatus) : string :=
  match s with
  | PENDING => "Pending"
  | CONFIRMED => "Confirmed"
  | FAILED => "Failed"
  end.

(** Effective time: the timestamp member, or createdAt if absent. *)
Definition effectiveTime (tx : Transaction) : option string :=
  match present (timestamp tx) with
  | Some s => Some s
  | None => present (createdAt tx)
  end.

Section WithHost.
Context {host : JS.Host}.

(** Epoch milliseconds of the effective time, [None] when there is
    no parseable time. *)
Definition effectiveEpoch (tx : Transaction) : JS.timeValue :=
  match effectiveTime tx with
  | Some s => JS.Date_parse s
  | None => None
  end.

(** [dateTo] advanced to 23:59:59.999 local time. *)
Definition endOfDay (dateTo : JS.timeValue) : JS.timeValue :=
  JS.setHours dateTo 23 59 59 999.

Definition passesStatus (selectedStatuses : list TransactionStatus)
                        (tx : Transaction) : bool :=
  match selectedStatuses with
  | [] => true
  | _ => existsb (status_eqb (status tx)) selectedStatuses
  end.

Definition passesDateRange (dateFrom dateTo : option JS.timeValue)
                           (tx : Transaction) : bool :=
  match dateFrom with
  | Some from => JS.tv_ge (effectiveEpoch tx) from
  | None => true
  end
  && match dateTo with
     | Some to => JS.tv_le (effectiveEpoch tx) (endOfDay to)
     | None => true
     end.

Definition matches (field query : string) : bool :=
  JS.includes (JS.toLowerCase field) (JS.toLowerCase query).

Definition passesSearch (searchQuery : string) (tx : Transaction) : bool :=
  match searchQuery with
  | EmptyString => true
  | _ => matches (hash tx) searchQuery
         || matches (fromAddress tx) searchQuery
         || matches (toAddress tx) searchQuery
  end.

Definition survives (selectedStatuses : list TransactionStatus)
    (dateFrom dateTo : option JS.timeValue) (searchQuery : string)
    (tx : Transaction) : bool :=
  passesStatus selectedStatuses tx
  && passesDateRange dateFrom dateTo tx
  && passesSearch searchQuery tx.

(** The comparator of the specification: an unparseable date
    compares as epoch 0, an unparseable amount as the value 0. *)
Definition sortValue (field : SortField) (tx : Transaction)
    : TransactionList.sortKey :=
  match field with
  | SF_timestamp =>
      TransactionList.KNumber
        (JS.Number_of_Z
           (match effectiveEpoch tx with Some t => t | None => 0 end))
  | SF_amount =>
      TransactionList.KNumber
        (let x := JS.parseFloat (amount tx) in
         if JS.isNaN x then JS.Number_of_Z 0 else x)
  | SF_status => TransactionList.KString (statusValue (status tx))
  end.

Definition compareFn (field : SortField) (direction : SortDirection)
                     (a b : Transaction) : Z :=
  let aValue := sortValue field a in
  let bValue := sortValue field b in
  if TransactionList.key_lt aValue bValue
  then match direction with asc => -1 | desc => 1 end
  else if TransactionList.key_lt bValue aValue
  then match direction with asc => 1 | desc => -1 end
  else 0.

(** The sort key of [tx] does not parse. *)
Definition unparseable (field : SortField) (tx : Transaction) : bool :=
  match field with
  | SF_timestamp =>
      match effectiveEpoch tx with None => true | Some _ => false end
  | SF_amount => JS.isNaN (JS.parseFloat (amount tx))
  | SF_status => false
  end.

(** The fixed columns of the export in their order, the amount and
    the fee cells being left open. *)
Definition layout (tx : Transaction) (amountCell feeCell : string)
    : ExportXLSX.Row :=
  [ ("Transaction Hash", hash tx);
    ("From Address", fromAddress tx);
    ("To Address", toAddress tx);
    ("Amount (ETH)", amountCell);
    ("Status", capitalized (status tx));
    ("Gas Limit",
      match present (gasLimit tx) with Some g => g | None => "N/A" end);
    ("Gas Price (ETH)",
      match present (gasPrice tx) with Some g => g | None => "N/A" end);
    ("Transaction Fee (ETH)", feeCell);
    ("Timestamp",
      match effectiveEpoch tx with
      | Some t => JS.dateTimeFormat t
      | None => "N/A"
      end);
    ("Date",
      match effectiveTime tx with Some s => s | None => "N/A" end) ].

(** The record of the specification: the amount is written with
    exactly 6 fraction digits; the fee is written with exactly 8 when
    both gas members are present, and is the text 0 when one is
    absent. *)
Definition isRecord (tx : Transaction) (row : ExportXLSX.Row) : Prop :=
  exists amountCell feeCell,
    row = layout tx amountCell feeCell
    /\ fixedDecimal 6 amountCell
    /\ match present (gasLimit tx), present (gasPrice tx) with
       | Some _, Some _ => fixedDecimal 8 feeCell
       | _, _ => feeCell = "0"
       end.
End WithHost.



End Spec.

(** ** Sample data *)
Module Samples.
Import Types.

(** A transaction with the given hash, amount, status and timestamp,
    no gas members and no createdAt. *)
Definition tx (h a : string) (s : TransactionStatus) (t : option string) : Transaction :=
  mkTransaction None None h "0x1" "0x2" a s None None t None None.

Definition pendingTx : Transaction := tx "0xa" "1.5" PENDING None.
Definition confirmedTx : Transaction := tx "0xb" "0.2" CONFIRMED None.

(** No parseable time, no parseable amount. *)
Definition unknownTx : Transaction := tx "0xc" "abc" FAILED None.

(** One second after the epoch, amount 1.5. *)
Definition datedTx : Transaction :=
  tx "0xd" "1.5" CONFIRMED (Some "1970-01-01T00:00:01.000Z").

(** With both gas members. *)
Definition gasTx : Transaction :=
  mkTransaction None (Some "1") "0xe" "0x1" "0x2" "1.5" PENDING
                (Some "21000") (Some "0.00000002")
                (Some "2024-01-05T15:07:00.123Z") None None.

(** Sixteen transactions whose hash holds an [a], then sixteen whose
    hash holds a [b]. *)
Definition twoGroups : list Transaction :=
  (repeat pendingTx 16 ++ repeat confirmedTx 16)%list.

Definition thirtySeven : list Transaction := repeat pendingTx 37.

(** Both gas members present, the gas limit not a number. *)
Definition badGasTx : Transaction :=
  mkTransaction None None "0xf" "0x1" "0x2" "1.5" PENDING
                (Some "abc") (Some "1") None None None.

(** An amount of 10^21. *)
Definition hugeTx : Transaction := tx "0x10" "1e21" CONFIRMED None.
End Samples.

(** * Properties *)

(** ** The runtime on sample inputs *)
Module RuntimeExamples.
Import Types.

Example parseFloat_decimal :
  JS.parseFloat "1.5" = S754_finite false 6755399441055744 (-52)
  /\ JS.parseFloat "0.1" = S754_finite false 7205759403792794 (-56)
  /\ JS.parseFloat "  -12.50abc" = JS.parseFloat "-12.5"
  /\ JS.parseFloat "1e3" = JS.Number_of_Z 1000
  /\ JS.parseFloat "2e-324" = S754_zero false
  /\ JS.parseFloat "1.8e308" = S754_infinity false.
Proof. repeat split; vm_compute; reflexivity. Qed.

Example parseFloat_not_a_number :
  JS.parseFloat "abc" = JS.NaN /\ JS.parseFloat "" = JS.NaN
  /\ JS.parseFloat "." = JS.NaN /\ JS.parseFloat "-e5" = JS.NaN.
Proof. repeat split; vm_compute; reflexivity. Qed.

Example toFixed_samples :
  JS.toFixed (JS.parseFloat "1.005") 2 = "1.00"
  /\ JS.toFixed (JS.parseFloat "2.5") 0 = "3"
  /\ JS.toFixed (JS.parseFloat "-0.0000001") 6 = "-0.000000"
  /\ JS.toFixed (JS.parseFloat "1e21") 6 = "1e+21"
  /\ JS.toFixed (JS.parseFloat "1.5e300") 6 = "1.5e+300"
  /\ JS.toFixed (JS.parseFloat "abc") 6 = "NaN".
Proof. repeat split; vm_compute; reflexivity. Qed.

Example dates_samples :
  JS.toISOString 1704467220123 = "2024-01-05T15:07:00.123Z"
  /\ JS.parseISO "2024-01-05T15:07:00.123Z" = Some 1704467220123
  /\ JS.parseISO "2024-02-30T15:07:00.123Z" = None
  /\ JS.setHours (host := JS.utcHost) (Some 1704467220123) 23 59 59 999
     = Some 1704499199999.
Proof. repeat split; vm_compute; reflexivity. Qed.

Example slice_samples :
  JS.slice [1; 2; 3; 4; 5] 1 3 = [2; 3]
  /\ JS.slice [1; 2; 3; 4; 5] 3 9 = [4; 5]
  /\ JS.slice [1; 2; 3; 4; 5] (-3) (-1) = [3; 4].
Proof. repeat split; reflexivity. Qed.

(** Amounts 1.5, 0.2 and 10 in ascending order of amount. *)
Example sort_by_amount :
  map amount
      (TransactionList.sortedTransactions (host := JS.utcHost)
         [Samples.tx "0x1" "1.5" PENDING None;
          Samples.tx "0x2" "0.2" PENDING None;
          Samples.tx "0x3" "10" PENDING None]
         SF_amount asc)
  = ["0.2"; "1.5"; "10"].
Proof. vm_compute. reflexivity. Qed.
End RuntimeExamples.

(** ** Pagination window *)
Module PaginationProps.
Import Types TransactionList.

Lemma ceilDiv_bounds (n d : Z) :
  0 < d -> (JS.ceilDiv n d - 1) * d < n <= JS.ceilDiv n d * d.
Proof.
  intros Hd. unfold JS.ceilDiv.
  pose proof (Z.div_mod (- n) d ltac:(lia)) as E.
  pose proof (Z.mod_pos_bound (- n) d Hd) as B.
  nia.
Qed.

Lemma ceilDiv_pos (n d : Z) : 0 < d -> 0 < n -> 1 <= JS.ceilDiv n d.
Proof.
  intros Hd Hn. pose proof (ceilDiv_bounds n d Hd) as B.
  destruct (Z_lt_le_dec (JS.ceilDiv n d) 1) as [L|L]; [nia | assumption].
Qed.

Lemma ceilDiv_zero (d : Z) : 0 < d -> JS.ceilDiv 0 d = 0.
Proof. intros _. reflexivity. Qed.

Section Slices.
Context {A : Type}.

Lemma indexRange_from (l : list A) (i lo hi : Z) :
  lo <= i -> Spec.indexRange l i lo hi = firstn (Z.to_nat (hi - i)) l.
Proof.
  revert i. induction l as [|x r IH]; intros i Hi; simpl.
  - now rewrite firstn_nil.
  - replace (lo <=? i) with true by (symmetry; apply Z.leb_le; lia).
    simpl. rewrite IH by lia.
    destruct (Z.ltb_spec i hi) as [L|L].
    + replace (Z.to_nat (hi - i)) with (S (Z.to_nat (hi - (i + 1)))) by lia.
      reflexivity.
    + replace (Z.to_nat (hi - (i + 1))) with O by lia.
      replace (Z.to_nat (hi - i)) with O by lia.
      reflexivity.
Qed.

Lemma indexRange_skip (l : list A) (i lo hi : Z) :
  i <= lo ->
  Spec.indexRange l i lo hi
  = firstn (Z.to_nat (hi - lo)) (skipn (Z.to_nat (lo - i)) l).
Proof.
  revert i. induction l as [|x r IH]; intros i Hi; simpl.
  - now rewrite skipn_nil, firstn_nil.
  - destruct (Z.eq_dec i lo) as [->|N].
    + replace (Z.to_nat (lo - lo)) with O by lia. simpl.
      rewrite Z.leb_refl. simpl.
      rewrite indexRange_from by lia.
      destruct (Z.ltb_spec lo hi) as [L|L].
      * replace (Z.to_nat (hi - lo)) with (S (Z.to_nat (hi - (lo + 1)))) by lia.
        reflexivity.
      * replace (Z.to_nat (hi - (lo + 1))) with O by lia.
        replace (Z.to_nat (hi - lo)) with O by lia.
        reflexivity.
    + replace (lo <=? i) with false by (symmetry; apply Z.leb_gt; lia).
      simpl. rewrite IH by lia.
      replace (Z.to_nat (lo - i)) with (S (Z.to_nat (lo - (i + 1)))) by lia.
      reflexivity.
Qed.

(** [slice] with non-negative bounds keeps the index range. *)
Lemma slice_indexRange (l : list A) (lo hi : Z) :
  0 <= lo -> 0 <= hi -> JS.slice l lo hi = Spec.indexRange l 0 lo hi.
Proof.
  intros Hlo Hhi. rewrite indexRange_skip by lia. unfold JS.slice.
  replace (lo <? 0) with false by (symmetry; apply Z.ltb_ge; lia).
  replace (hi <? 0) with false by (symmetry; apply Z.ltb_ge; lia).
  rewrite Z.sub_0_r.
  set (len := Z.of_nat (List.length l)).
  destruct (Z_lt_le_dec lo len) as [L|L].
  - rewrite (Z.min_l lo len) by lia.
    destruct (Z_lt_le_dec hi len) as [M|M].
    + now rewrite (Z.min_l hi len) by lia.
    + rewrite (Z.min_r hi len) by lia.
      rewrite !firstn_all2; try reflexivity;
        rewrite length_skipn; subst len; lia.
  - rewrite (Z.min_r lo len) by lia.
    rewrite !skipn_all2 by (subst len; lia).
    now rewrite !firstn_nil.
Qed.

Lemma slice_length (l : list A) (lo hi : Z) :
  0 <= lo -> 0 <= hi ->
  Z.of_nat (List.length (JS.slice l lo hi))
  = Z.max 0 (Z.min hi (Z.of_nat (List.length l))
             - Z.min lo (Z.of_nat (List.length l))).
Proof.
  intros Hlo Hhi. unfold JS.slice.
  replace (lo <? 0) with false by (symmetry; apply Z.ltb_ge; lia).
  replace (hi <? 0) with false by (symmetry; apply Z.ltb_ge; lia).
  rewrite length_firstn, length_skipn. lia.
Qed.

Lemma slice_nil (lo hi : Z) : JS.slice (@nil A) lo hi = [].
Proof. unfold JS.slice. rewrite skipn_nil. apply firstn_nil. Qed.
End Slices.

(** C1, amended: totalPages is the ceiling of n / itemsPerPage (the
    least k with n <= k * itemsPerPage); for a non-empty sequence
    this is max(1, ceil(n / itemsPerPage)); for the empty sequence
    totalPages is 0 and the visible slice is empty. *)
Theorem totalPages_is_ceiling
    (sorted : list Transaction) (currentPage itemsPerPage : Z) :
  0 < itemsPerPage ->
  let n := Z.of_nat (List.length sorted) in
  (totalPages sorted itemsPerPage - 1) * itemsPerPage < n
    <= totalPages sorted itemsPerPage * itemsPerPage
  /\ (sorted <> [] -> totalPages sorted itemsPerPage = Spec.totalPages n itemsPerPage)
  /\ (sorted = [] ->
      totalPages sorted itemsPerPage = 0
      /\ paginatedTransactions sorted currentPage itemsPerPage = []).
Proof.
  intros Hd n. unfold totalPages. fold n. split; [|split].
  - apply ceilDiv_bounds; assumption.
  - intros Hne. unfold Spec.totalPages.
    assert (0 < n) by (subst n; destruct sorted; [congruence | simpl; lia]).
    pose proof (ceilDiv_pos n itemsPerPage Hd ltac:(assumption)). lia.
  - intros ->. subst n. simpl. split.
    + apply ceilDiv_zero; assumption.
    + apply slice_nil.
Qed.

Lemma totalPages_is_ceiling_witness :
  0 < 15
  /\ (totalPages Samples.thirtySeven 15 - 1) * 15 < 37
       <= totalPages Samples.thirtySeven 15 * 15.
Proof.
  split; [lia|].
  exact (proj1 (totalPages_is_ceiling Samples.thirtySeven 1 15 ltac:(lia))).
Defined.

(** C1 as stated fails: on the empty sequence totalPages is 0, not
    max(1, ceil(0 / 15)) = 1. *)
Lemma totalPages_empty_is_not_one :
  totalPages [] 15 <> Spec.totalPages (Z.of_nat (List.length (@nil Transaction))) 15.
Proof. vm_compute. discriminate. Qed.

(** C6: for a 1-based page and a positive page size, the visible
    slice is exactly the elements at the indices of
    [(currentPage-1)*itemsPerPage, currentPage*itemsPerPage) that
    exist in the sequence; with 37 rows and itemsPerPage = 15 there
    are 3 pages and page 3 shows the 7 rows at indices 30 to 36. *)
Theorem paginated_is_index_range
    (sorted : list Transaction) (currentPage itemsPerPage : Z) :
  1 <= currentPage -> 0 < itemsPerPage ->
  paginatedTransactions sorted currentPage itemsPerPage
  = Spec.indexRange sorted 0 ((currentPage - 1) * itemsPerPage)
                             (currentPage * itemsPerPage)
  /\ (List.length sorted = 37%nat ->
      totalPages sorted 15 = 3
      /\ paginatedTransactions sorted 3 15 = Spec.indexRange sorted 0 30 37
      /\ List.length (paginatedTransactions sorted 3 15) = 7%nat).
Proof.
  intros Hp Hd. split.
  - unfold paginatedTransactions, endIndex, startIndex.
    rewrite slice_indexRange by nia. f_equal. ring.
  - intros Hlen. split; [|split].
    + unfold totalPages. rewrite Hlen. reflexivity.
    + unfold paginatedTransactions, endIndex, startIndex.
      rewrite slice_indexRange by lia.
      rewrite !indexRange_skip by lia.
      simpl Z.to_nat.
      rewrite !firstn_all2; try reflexivity; rewrite length_skipn, Hlen; lia.
    + unfold paginatedTransactions, endIndex, startIndex.
      pose proof (slice_length sorted ((3 - 1) * 15) ((3 - 1) * 15 + 15)
                    ltac:(lia) ltac:(lia)) as E.
      rewrite Hlen in E. lia.
Qed.

Lemma paginated_is_index_range_witness :
  1 <= 3 /\ 0 < 15
  /\ paginatedTransactions Samples.thirtySeven 3 15
     = Spec.indexRange Samples.thirtySeven 0 ((3 - 1) * 15) (3 * 15).
Proof.
  split; [lia|]. split; [lia|].
  exact (proj1 (paginated_is_index_range Samples.thirtySeven 3 15
                  ltac:(lia) ltac:(lia))).
Defined.
End PaginationProps.

(** ** Filter predicate composer *)
Module FilterProps.
Import Types.

Lemma filter_filter {A : Type} (p q : A -> bool) (l : list A) :
  filter q (filter p l) = filter (fun x => p x && q x) l.
Proof.
  induction l as [|x r IH]; simpl; [reflexivity|].
  destruct (p x); simpl; [destruct (q x)|]; now rewrite IH.
Qed.

Lemma filter_true {A : Type} (l : list A) : filter (fun _ => true) l = l.
Proof. induction l as [|x r IH]; simpl; now rewrite ?IH. Qed.

Lemma filter_length_le {A : Type} (p q : A -> bool) (l : list A) :
  (forall x, In x l -> p x = true -> q x = true) ->
  (List.length (filter p l) <= List.length (filter q l))%nat.
Proof.
  induction l as [|x r IH]; intros H; simpl; [lia|].
  assert (Hr : (List.length (filter p r) <= List.length (filter q r))%nat)
    by (apply IH; intros y Hy; apply H; now right).
  destruct (p x) eqn:P.
  - rewrite (H x (or_introl eq_refl) P). simpl. lia.
  - destruct (q x); simpl; lia.
Qed.

(** An invalid date is neither before nor after any date. *)
Lemma tv_ge_nan (b : JS.timeValue) : JS.tv_ge None b = false.
Proof. now destruct b. Qed.

Lemma tv_le_nan (b : JS.timeValue) : JS.tv_le None b = false.
Proof. reflexivity. Qed.

Section WithHost.
Context {host : JS.Host}.

(** The Date built by the filter is the effective time of the
    specification. *)
Lemma txDate_effectiveEpoch (tx : Transaction) :
  Page.txDate tx = Spec.effectiveEpoch tx.
Proof.
  unfold Page.txDate, Spec.effectiveEpoch, Spec.effectiveTime.
  destruct (timestamp tx) as [[|c s]|], (createdAt tx) as [[|d r]|];
    simpl; try reflexivity; apply JS.Date_parse_empty.
Qed.

Lemma passesStatus_nonempty (sel : list TransactionStatus) (tx : Transaction) :
  sel <> [] ->
  Spec.passesStatus sel tx = JS.Array_includes status_eqb sel (status tx).
Proof. destruct sel; [congruence | reflexivity]. Qed.

(** The stages of the source compose into one conjunctive filter. *)
Lemma filteredTransactions_filter
    (txs : list Transaction) (sel : list TransactionStatus)
    (from to : option JS.timeValue) (q : string) :
  Page.filteredTransactions txs sel from to q
  = filter (Spec.survives sel from to q) txs.
Proof.
  unfold Page.filteredTransactions.
  assert (S1 : (if 0 <? Z.of_nat (List.length sel)
                then filter (fun tx => JS.Array_includes status_eqb sel (status tx)) txs
                else txs)
               = filter (Spec.passesStatus sel) txs).
  { destruct sel; simpl; [now rewrite filter_true | reflexivity]. }
  rewrite S1. clear S1.
  set (l1 := filter (Spec.passesStatus sel) txs).
  assert (S2 : match from with
               | Some f => filter (fun tx => JS.tv_ge (Page.txDate tx) f) l1
               | None => l1
               end
               = filter (fun tx => match from with
                                   | Some f => JS.tv_ge (Spec.effectiveEpoch tx) f
                                   | None => true
                                   end) l1).
  { destruct from; [|now rewrite filter_true].
    apply filter_ext. intros tx. now rewrite txDate_effectiveEpoch. }
  rewrite S2. clear S2.
  set (l2 := filter _ l1).
  assert (S3 : match to with
               | Some t =>
                   filter (fun tx => JS.tv_le (Page.txDate tx)
                                              (JS.setHours t 23 59 59 999)) l2
               | None => l2
               end
               = filter (fun tx => match to with
                                   | Some t => JS.tv_le (Spec.effectiveEpoch tx)
                                                        (Spec.endOfDay t)
                                   | None => true
                                   end) l2).
  { destruct to; [|now rewrite filter_true].
    apply filter_ext. intros tx. now rewrite txDate_effectiveEpoch. }
  rewrite S3. clear S3.
  set (l3 := filter _ l2).
  assert (S4 : (if negb (String.eqb q "")
                then filter (fun tx =>
                               JS.includes (JS.toLowerCase (hash tx)) (JS.toLowerCase q)
                               || JS.includes (JS.toLowerCase (fromAddress tx)) (JS.toLowerCase q)
                               || JS.includes (JS.toLowerCase (toAddress tx)) (JS.toLowerCase q))
                            l3
                else l3)
               = filter (Spec.passesSearch q) l3).
  { destruct q; simpl; [now rewrite filter_true | reflexivity]. }
  rewrite S4. clear S4.
  subst l3 l2 l1. rewrite !filter_filter.
  apply filter_ext. intros tx.
  unfold Spec.survives, Spec.passesDateRange. now rewrite !andb_assoc.
Qed.

(** C5: a transaction survives filtering iff it passes the status
    criterion, the date-range criterion and the search criterion;
    a transaction without a parseable time fails any active date
    bound; with no status selected, no date bound and an empty
    query the filtered collection is the raw collection. *)
Theorem filtered_iff_survives
    (txs : list Transaction) (sel : list TransactionStatus)
    (from to : option JS.timeValue) (q : string) :
  Page.filteredTransactions txs sel from to q
    = filter (Spec.survives sel from to q) txs
  /\ (forall tx,
        In tx (Page.filteredTransactions txs sel from to q)
        <-> In tx txs /\ Spec.passesStatus sel tx = true
            /\ Spec.passesDateRange from to tx = true
            /\ Spec.passesSearch q tx = true)
  /\ (forall tx,
        Spec.effectiveEpoch tx = None ->
        from <> None \/ to <> None ->
        Spec.survives sel from to q tx = false)
  /\ Page.filteredTransactions txs [] None None "" = txs.
Proof.
  split; [apply filteredTransactions_filter|]. split; [|split].
  - intros tx. rewrite filteredTransactions_filter, filter_In.
    unfold Spec.survives. rewrite !andb_true_iff. tauto.
  - intros tx E H. unfold Spec.survives, Spec.passesDateRange. rewrite E.
    destruct from as [f|], to as [t|];
      rewrite ?tv_ge_nan, ?tv_le_nan; simpl;
      rewrite ?andb_false_r; try reflexivity.
    destruct H; congruence.
  - rewrite filteredTransactions_filter. apply filter_true.
Qed.

(** Ticking a status that is not selected appends it to the selection. *)
Lemma handleStatusToggle_adds (sel : list TransactionStatus) (status : TransactionStatus) :
  JS.Array_includes status_eqb sel status = false ->
  InlineFilters.handleStatusToggle sel status = (sel ++ [status])%list.
Proof. intros H. unfold InlineFilters.handleStatusToggle. now rewrite H. Qed.

(** C2, amended: with a non-empty selection, adding a status never
    decreases the number of surviving transactions; no selection
    lets more transactions through than the empty one, for which
    the status criterion removes nothing, so that the count is the
    one of the other criteria alone, and the raw count when none
    of them is set. *)
Theorem status_filter_monotone
    (txs : list Transaction) (sel : list TransactionStatus)
    (status : TransactionStatus)
    (from to : option JS.timeValue) (q : string) :
  sel <> [] ->
  (List.length (Page.filteredTransactions txs sel from to q)
   <= List.length (Page.filteredTransactions txs (sel ++ [status]) from to q))%nat
  /\ (List.length (Page.filteredTransactions txs sel from to q)
      <= List.length (Page.filteredTransactions txs [] from to q))%nat
  /\ Page.filteredTransactions txs [] from to q
     = filter (fun tx => Spec.passesDateRange from to tx && Spec.passesSearch q tx) txs
  /\ List.length (Page.filteredTransactions txs [] None None "") = List.length txs.
Proof.
  intros Hne. rewrite !filteredTransactions_filter.
  split; [|split; [|split]].
  - apply filter_length_le. intros tx _.
    unfold Spec.survives. rewrite !andb_true_iff. intros [[S D] Q].
    repeat split; try assumption.
    rewrite passesStatus_nonempty in * by (try assumption; destruct sel; simpl; congruence).
    unfold JS.Array_includes in *. rewrite existsb_app, S. reflexivity.
  - apply filter_length_le. intros tx _.
    unfold Spec.survives. rewrite !andb_true_iff. intros [[S D] Q].
    repeat split; assumption.
  - apply filter_ext. intros tx. reflexivity.
  - now rewrite filter_true.
Qed.
End WithHost.

Lemma status_filter_monotone_witness :
  [PENDING] <> []
  /\ (List.length (Page.filteredTransactions (host := JS.utcHost)
                     Samples.twoGroups [PENDING] None None "")
      <= List.length (Page.filteredTransactions (host := JS.utcHost)
                        Samples.twoGroups ([PENDING] ++ [CONFIRMED]) None None ""))%nat.
Proof.
  split; [discriminate|].
  exact (proj1 (status_filter_monotone (host := JS.utcHost)
                  Samples.twoGroups [PENDING] CONFIRMED None None ""
                  ltac:(discriminate))).
Defined.

(** C2 as stated fails: with [pending] selected, one pending and one
    confirmed transaction, ticking [confirmed] raises the count of
    surviving transactions from 1 to 2. *)
Lemma adding_status_increases_count :
  InlineFilters.handleStatusToggle [PENDING] CONFIRMED = [PENDING; CONFIRMED]
  /\ ~ (List.length (Page.filteredTransactions (host := JS.utcHost)
                       [Samples.pendingTx; Samples.confirmedTx]
                       [PENDING; CONFIRMED] None None "")
        <= List.length (Page.filteredTransactions (host := JS.utcHost)
                          [Samples.pendingTx; Samples.confirmedTx]
                          [PENDING] None None ""))%nat.
Proof. split; [reflexivity|]. vm_compute. lia. Qed.
End FilterProps.

(** ** Comparator engine *)
Module ComparatorProps.
Import Types TransactionList.

Lemma key_lt_nan_l (k : sortKey) : key_lt (KNumber JS.NaN) k = false.
Proof. destruct k; reflexivity. Qed.

Lemma key_lt_nan_r (k : sortKey) : key_lt k (KNumber JS.NaN) = false.
Proof. destruct k as [x|s]; [destruct x|]; reflexivity. Qed.

Section WithHost.
Context {host : JS.Host}.

(** The key of a transaction that does not parse is NaN. *)
Lemma sortValue_unparseable (field : SortField) (tx : Transaction) :
  Spec.unparseable field tx = true -> sortValue field tx = KNumber JS.NaN.
Proof.
  destruct field; simpl; intros H.
  - fold (Page.txDate tx). rewrite FilterProps.txDate_effectiveEpoch.
    destruct (Spec.effectiveEpoch tx); [discriminate | reflexivity].
  - destruct (JS.parseFloat (amount tx)); try discriminate. reflexivity.
  - discriminate.
Qed.

(** C4, amended: under sortField timestamp a transaction whose
    effective time is unparseable, and under sortField amount a
    transaction whose amount is unparseable, compares as equal to
    every transaction, on either side and in either direction: the
    comparator returns 0 and substitutes no sentinel. *)
Theorem unparseable_compares_equal
    (field : SortField) (direction : SortDirection) (a b : Transaction) :
  Spec.unparseable field a = true ->
  compareFn field direction a b = 0 /\ compareFn field direction b a = 0.
Proof.
  intros H. unfold compareFn, key_gt.
  rewrite (sortValue_unparseable field a H).
  now rewrite !key_lt_nan_l, !key_lt_nan_r.
Qed.
End WithHost.

Lemma unparseable_compares_equal_witness :
  Spec.unparseable (host := JS.utcHost) SF_amount Samples.unknownTx = true
  /\ compareFn (host := JS.utcHost) SF_amount asc Samples.unknownTx Samples.datedTx = 0
  /\ compareFn (host := JS.utcHost) SF_amount asc Samples.datedTx Samples.unknownTx = 0.
Proof.
  split; [reflexivity|].
  exact (unparseable_compares_equal (host := JS.utcHost) SF_amount asc
           Samples.unknownTx Samples.datedTx eq_refl).
Defined.

(** C4 as stated fails: a transaction without a parseable time does
    not compare as epoch 0 against one dated one second after the
    epoch, nor does the amount [abc] compare as 0 against 1.5; in
    ascending order the undated transaction is not moved to the
    front. *)
Lemma unparseable_is_no_sentinel :
  Spec.unparseable (host := JS.utcHost) SF_timestamp Samples.unknownTx = true
  /\ compareFn (host := JS.utcHost) SF_timestamp asc Samples.unknownTx Samples.datedTx = 0
  /\ Spec.compareFn (host := JS.utcHost) SF_timestamp asc Samples.unknownTx Samples.datedTx = -1
  /\ Spec.unparseable (host := JS.utcHost) SF_amount Samples.unknownTx = true
  /\ compareFn (host := JS.utcHost) SF_amount asc Samples.unknownTx Samples.datedTx = 0
  /\ Spec.compareFn (host := JS.utcHost) SF_amount asc Samples.unknownTx Samples.datedTx = -1
  /\ sortedTransactions (host := JS.utcHost)
       [Samples.datedTx; Samples.unknownTx] SF_timestamp asc
     = [Samples.datedTx; Samples.unknownTx].
Proof. repeat split; vm_compute; reflexivity. Qed.
End ComparatorProps.

(** ** Formatters *)
Module FormatProps.
Section WithHost.
Context {host : JS.Host}.

(** C10: for an amount that parseFloat maps to NaN, formatAmount
    returns the literal text [0 ${symbol}], whatever the symbol
    argument, and not a text holding the symbol. *)
Theorem formatAmount_unparseable (amount : string) (symbol : option string) :
  JS.isNaN (JS.parseFloat amount) = true ->
  Format.formatAmount amount symbol = "0 ${symbol}".
Proof. intros H. unfold Format.formatAmount. now rewrite H. Qed.
End WithHost.

Lemma formatAmount_unparseable_witness :
  JS.isNaN (JS.parseFloat "abc") = true
  /\ Format.formatAmount (host := JS.utcHost) "abc" (Some "BTC") = "0 ${symbol}".
Proof.
  split; [reflexivity|].
  exact (formatAmount_unparseable (host := JS.utcHost) "abc" (Some "BTC") eq_refl).
Defined.
End FormatProps.

(** ** Export serializer *)
Module ExportProps.
Import Types ExportXLSX.

(** *** Decimal numerals *)

Lemma allDigits_app (a b : string) :
  Spec.allDigits (a ++ b) = Spec.allDigits a && Spec.allDigits b.
Proof.
  induction a as [|c r IH]; simpl; [reflexivity|].
  destruct (JS.digitVal c); [assumption | reflexivity].
Qed.

Lemma string_length_app (a b : string) :
  String.length (a ++ b) = (String.length a + String.length b)%nat.
Proof. induction a as [|c r IH]; simpl; [reflexivity | now rewrite IH]. Qed.

Lemma digitChar_digit (d : Z) :
  0 <= d < 10 -> JS.digitVal (JS.digitChar d) = Some d.
Proof.
  intros H.
  assert (C : d = 0 \/ d = 1 \/ d = 2 \/ d = 3 \/ d = 4
              \/ d = 5 \/ d = 6 \/ d = 7 \/ d = 8 \/ d = 9) by lia.
  repeat (destruct C as [->|C]; [reflexivity|]). subst. reflexivity.
Qed.

Lemma fixedDigits_length (k : nat) (n : Z) :
  String.length (JS.fixedDigits k n) = k.
Proof.
  revert n. induction k as [|k IH]; intros n; cbn [JS.fixedDigits]; [reflexivity|].
  rewrite string_length_app, IH. cbn [String.length]. lia.
Qed.

Lemma fixedDigits_digits (k : nat) (n : Z) :
  Spec.allDigits (JS.fixedDigits k n) = true.
Proof.
  revert n. induction k as [|k IH]; intros n; cbn [JS.fixedDigits]; [reflexivity|].
  rewrite allDigits_app, IH. cbn [andb Spec.allDigits].
  rewrite digitChar_digit by (apply Z.mod_pos_bound; lia). reflexivity.
Qed.

Lemma string_of_uint_digits (d : Decimal.uint) :
  Spec.allDigits (NilEmpty.string_of_uint d) = true.
Proof. induction d; simpl; assumption || reflexivity. Qed.

Lemma decimal_digits (n : Z) : Spec.allDigits (JS.decimal n) = true.
Proof.
  unfold JS.decimal, NilZero.string_of_uint.
  destruct (N.to_uint (Z.to_N n)) eqn:E; try reflexivity;
    rewrite <- E; apply string_of_uint_digits.
Qed.

Lemma decimal_nonempty (n : Z) : JS.decimal n <> "".
Proof.
  unfold JS.decimal, NilZero.string_of_uint.
  destruct (N.to_uint (Z.to_N n)); simpl; discriminate.
Qed.

Lemma fixedPoint_fixedDecimal (sign : string) (n : Z) (f : nat) :
  sign = "" \/ sign = "-" ->
  Spec.fixedDecimal (S f) (sign ++ JS.fixedPoint n (S f)).
Proof.
  intros Hs. unfold JS.fixedPoint.
  exists sign, (JS.decimal (n / 10 ^ Z.of_nat (S f))), (JS.fixedDigits (S f) n).
  repeat split.
  - assumption.
  - apply decimal_nonempty.
  - apply decimal_digits.
  - apply fixedDigits_digits.
  - apply fixedDigits_length.
Qed.

(** toFixed writes a finite Number below 10^21 with exactly the
    requested number of fraction digits. *)
Lemma toFixed_fixedDecimal (x : JS.number) (f : nat) :
  Spec.plain x = true -> Spec.fixedDecimal (S f) (JS.toFixed x (S f)).
Proof.
  destruct x as [s|s| |s m e]; simpl; intros H; try discriminate.
  - apply (fixedPoint_fixedDecimal "" 0 f). now left.
  - apply negb_true_iff in H. unfold JS.toFixed. rewrite H.
    apply fixedPoint_fixedDecimal. destruct s; [now right | now left].
Qed.

Lemma allChars_append (p : ascii -> bool) (a b : string) :
  Format.allChars p (a ++ b) = Format.allChars p a && Format.allChars p b.
Proof.
  induction a as [|c r IH]; simpl; [reflexivity|].
  now rewrite IH, andb_assoc.
Qed.

Lemma allDigits_numeral (s : string) :
  Spec.allDigits s = true -> Format.allChars Spec.numeralChar s = true.
Proof.
  induction s as [|c r IH]; simpl; [reflexivity|]. unfold Spec.numeralChar.
  destruct (JS.digitVal c); [exact IH | discriminate].
Qed.

(** A numeral with fraction digits is written with digits, a sign and
    a point only, and holds two units at least. *)
Lemma fixedDecimal_numeral (f : nat) (s : string) :
  Spec.fixedDecimal f s ->
  Format.allChars Spec.numeralChar s = true /\ (2 <= String.length s)%nat.
Proof.
  intros (sign & int & frac & -> & Hs & Hi & Di & Df & _). split.
  - rewrite !allChars_append, (allDigits_numeral int Di), (allDigits_numeral frac Df).
    destruct Hs as [-> | ->]; reflexivity.
  - rewrite !string_length_app. destruct int; [congruence|]. simpl. lia.
Qed.

Lemma exponent_not_numeral (a b : string) :
  Format.allChars Spec.numeralChar (a ++ "e+" ++ b) = false.
Proof.
  rewrite allChars_append. cbn [append Format.allChars].
  change (Spec.numeralChar "e") with false.
  now destruct (Format.allChars Spec.numeralChar a).
Qed.

(** Above 10^21 the digits come in exponent notation. *)
Lemma Number_toString_large_not_numeral (sign : string) (X : Z) (f : nat) :
  sign = "" \/ sign = "-" ->
  ~ Spec.fixedDecimal f (sign ++ JS.Number_toString_large X).
Proof.
  intros Hs H. apply fixedDecimal_numeral in H. destruct H as [C L].
  rewrite allChars_append in C. apply andb_true_iff in C. destruct C as [_ C].
  rewrite string_length_app in L.
  unfold JS.Number_toString_large in *.
  destruct (JS.shortest X _ 1 _) as [c d].
  destruct (JS.stripZeros (JS.decimal c)) as [|c1 [|c2 r]].
  - destruct Hs as [-> | ->]; simpl in L; lia.
  - lazymatch type of C with
    | Format.allChars _ (String _ (append _ ?b)) = true =>
        pose proof (exponent_not_numeral (String c1 EmptyString) b) as N
    end.
    exact (eq_true_false_abs _ C N).
  - lazymatch type of C with
    | Format.allChars _ (String _ (append _ (append _ (append _ ?b)))) = true =>
        pose proof (exponent_not_numeral (String c1 (String "." (String c2 r))) b) as N
    end.
    exact (eq_true_false_abs _ C N).
Qed.

(** toFixed writes exactly the requested number of fraction digits for
    a finite Number below 10^21, and for no other: it writes NaN,
    Infinity, -Infinity or exponent notation for those. *)
Lemma toFixed_fixedDecimal_iff (x : JS.number) (f : nat) :
  Spec.fixedDecimal (S f) (JS.toFixed x (S f)) <-> Spec.plain x = true.
Proof.
  split; [|apply toFixed_fixedDecimal].
  destruct x as [s|s| |s m e]; intros H; try reflexivity.
  - apply fixedDecimal_numeral in H. destruct s; destruct H as [C _]; discriminate C.
  - apply fixedDecimal_numeral in H. destruct H as [C _]. discriminate C.
  - cbn [Spec.plain]. destruct (JS.isLarge m e) eqn:E; [|reflexivity]. exfalso.
    unfold JS.toFixed in H. rewrite E in H.
    apply (Number_toString_large_not_numeral (if s then "-" else "") _ _
             ltac:(destruct s; auto) H).
Qed.

(** *** The worksheet *)

Lemma nth_app_last {A : Type} (l : list A) (x d : A) :
  nth (List.length l) (l ++ [x]) d = x.
Proof. rewrite app_nth2 by lia. now rewrite Nat.sub_diag. Qed.

Lemma updateNth_app_last {A : Type} (l : list A) (x : A) (f : A -> A) :
  updateNth (List.length l) f (l ++ [x]) = (l ++ [f x])%list.
Proof. induction l as [|y r IH]; simpl; [reflexivity | now rewrite IH]. Qed.

Section WithHost.
Context {host : JS.Host}.

(** The cells of the source against those of the specification. *)
Lemma cell_status (st : TransactionStatus) :
  JS.toUpperCase (JS.charAt (statusValue st) 0) ++ JS.sliceFrom (statusValue st) 1
  = Spec.capitalized st.
Proof. destruct st; reflexivity. Qed.

Lemma cell_gas (g : option string) :
  JS.or_str g "N/A" = match Spec.present g with Some x => x | None => "N/A" end.
Proof. destruct g as [[|c r]|]; reflexivity. Qed.

Lemma cell_fee (l p : option string) :
  (if JS.truthy l && JS.truthy p
   then JS.toFixed (JS.Number_mul (JS.parseFloat (JS.or_str l ""))
                                  (JS.parseFloat (JS.or_str p ""))) 8
   else "0")
  = match Spec.present l, Spec.present p with
    | Some x, Some y =>
        JS.toFixed (JS.Number_mul (JS.parseFloat x) (JS.parseFloat y)) 8
    | _, _ => "0"
    end.
Proof. destruct l as [[|c r]|], p as [[|d q]|]; reflexivity. Qed.

Lemma cell_timestamp (tx : Transaction) :
  Format.formatFullDate
    (option_map Format.DateString (JS.or_undef (timestamp tx) (createdAt tx)))
  = match Spec.effectiveEpoch tx with
    | Some t => JS.dateTimeFormat t
    | None => "N/A"
    end.
Proof.
  unfold Spec.effectiveEpoch, Spec.effectiveTime.
  destruct (timestamp tx) as [[|c s]|], (createdAt tx) as [[|d r]|]; reflexivity.
Qed.

Lemma cell_date (tx : Transaction) :
  JS.or_str (JS.or_undef (timestamp tx) (createdAt tx)) "N/A"
  = match Spec.effectiveTime tx with Some s => s | None => "N/A" end.
Proof.
  unfold Spec.effectiveTime.
  destruct (timestamp tx) as [[|c s]|], (createdAt tx) as [[|d r]|]; reflexivity.
Qed.

(** The object built by the source, cell by cell. *)
Lemma exportRow_cells (tx : Transaction) :
  exportRow tx
  = Spec.layout tx
      (JS.toFixed (JS.parseFloat (amount tx)) 6)
      (match Spec.present (gasLimit tx), Spec.present (gasPrice tx) with
       | Some l, Some p =>
           JS.toFixed (JS.Number_mul (JS.parseFloat l) (JS.parseFloat p)) 8
       | _, _ => "0"
       end).
Proof.
  unfold exportRow, Spec.layout.
  now rewrite cell_date, cell_timestamp, cell_status, !cell_gas, cell_fee.
Qed.

(** The object built by the source is the record of the specification
    exactly for the amounts, and the fees, that are finite Numbers below
    10^21. *)
Lemma exportRow_isRecord_iff (tx : Transaction) :
  Spec.isRecord tx (exportRow tx)
  <-> Spec.plain (JS.parseFloat (amount tx)) = true
      /\ (forall l p,
            Spec.present (gasLimit tx) = Some l ->
            Spec.present (gasPrice tx) = Some p ->
            Spec.plain (JS.Number_mul (JS.parseFloat l) (JS.parseFloat p)) = true).
Proof.
  split.
  - intros (a & f & E & Ha & Hf). rewrite exportRow_cells in E.
    unfold Spec.layout in E.
    pose proof (f_equal (fun r => snd (nth 3 r ("", ""))) E) as Ea.
    pose proof (f_equal (fun r => snd (nth 7 r ("", ""))) E) as Ef.
    cbv beta in Ea, Ef. cbn [nth snd] in Ea, Ef. subst a f. split.
    + now apply toFixed_fixedDecimal_iff in Ha.
    + intros l p Hl Hp. rewrite Hl, Hp in Hf.
      now apply toFixed_fixedDecimal_iff in Hf.
  - intros [Ha Hf]. eexists _, _. split; [apply exportRow_cells|]. split.
    + now apply toFixed_fixedDecimal_iff.
    + destruct (Spec.present (gasLimit tx)) as [l|]; [|reflexivity].
      destruct (Spec.present (gasPrice tx)) as [p|]; [|reflexivity].
      apply toFixed_fixedDecimal_iff, Hf; reflexivity.
Qed.

(** The file written holds one sheet, named Transactions, with one
    record per transaction and the fixed column widths. *)
Lemma export_writes_records
    (txs : list Transaction) (filename : string) (w : World) :
  files (execState (exportTransactionsToXLSX txs (Some filename)) w)
  = (files w
     ++ [(filename,
          [("Transactions", mkWorksheet (map exportRow txs) columnWidths)])])%list.
Proof.
  unfold exportTransactionsToXLSX, execState. simpl.
  rewrite !updateNth_app_last, !nth_app_last. simpl.
  now rewrite nth_app_last.
Qed.

(** C8: the record serialized for a transaction holds, in this order,
    the hash, the from address, the to address, the amount as toFixed(6)
    writes it, the status capitalized, the gas limit or N/A when it is
    absent or empty, the gas price or N/A, the fee gasLimit x gasPrice
    as toFixed(8) writes it or 0 when a gas member is absent or empty,
    the full formatted timestamp, and the raw timestamp/createdAt value
    or N/A.  The amount has exactly 6 fraction digits if and only if it
    parses to a finite Number below 10^21, and is the text NaN when it
    does not parse; likewise the fee with 8 digits.  The record is the
    one of the specification exactly when the amount and the fee are
    such Numbers. *)
Theorem export_record_columns (tx : Transaction) :
  exportRow tx
  = Spec.layout tx
      (JS.toFixed (JS.parseFloat (amount tx)) 6)
      (match Spec.present (gasLimit tx), Spec.present (gasPrice tx) with
       | Some l, Some p =>
           JS.toFixed (JS.Number_mul (JS.parseFloat l) (JS.parseFloat p)) 8
       | _, _ => "0"
       end)
  /\ map fst (exportRow tx)
     = [ "Transaction Hash"; "From Address"; "To Address"; "Amount (ETH)";
         "Status"; "Gas Limit"; "Gas Price (ETH)"; "Transaction Fee (ETH)";
         "Timestamp"; "Date" ]
  /\ (Spec.fixedDecimal 6 (JS.toFixed (JS.parseFloat (amount tx)) 6)
      <-> Spec.plain (JS.parseFloat (amount tx)) = true)
  /\ (JS.isNaN (JS.parseFloat (amount tx)) = true ->
      JS.toFixed (JS.parseFloat (amount tx)) 6 = "NaN")
  /\ (forall l p,
        Spec.present (gasLimit tx) = Some l ->
        Spec.present (gasPrice tx) = Some p ->
        let fee := JS.Number_mul (JS.parseFloat l) (JS.parseFloat p) in
        (Spec.fixedDecimal 8 (JS.toFixed fee 8) <-> Spec.plain fee = true)
        /\ (JS.isNaN fee = true -> JS.toFixed fee 8 = "NaN"))
  /\ (Spec.isRecord tx (exportRow tx)
      <-> Spec.plain (JS.parseFloat (amount tx)) = true
          /\ (forall l p,
                Spec.present (gasLimit tx) = Some l ->
                Spec.present (gasPrice tx) = Some p ->
                Spec.plain (JS.Number_mul (JS.parseFloat l) (JS.parseFloat p))
                = true)).
Proof.
  split; [apply exportRow_cells|]. split; [reflexivity|].
  split; [apply toFixed_fixedDecimal_iff|]. split.
  - destruct (JS.parseFloat (amount tx)); try discriminate. reflexivity.
  - split.
    + intros l p _ _ fee. split; [apply toFixed_fixedDecimal_iff|].
      destruct fee; try discriminate. reflexivity.
    + apply exportRow_isRecord_iff.
Qed.

(** On a non-empty collection the export writes one file. *)
Lemma export_nonempty_writes (now : Z) (tx : Transaction)
    (txs : list Transaction) (w : World) :
  files (execState (InlineFilters.handleExport now (tx :: txs)) w)
  = (files w
     ++ [(("transactions-" ++ JS.splitHead "T" (JS.toISOString now) ++ ".xlsx")%string,
          [("Transactions",
            mkWorksheet (map exportRow (tx :: txs)) columnWidths)])])%list.
Proof.
  unfold InlineFilters.handleExport.
  change (Nat.eqb (List.length (tx :: txs)) 0) with false.
  cbv iota. apply export_writes_records.
Qed.

(** C7: export on an empty collection does nothing: no worksheet or
    workbook is built and no file is written, the world is left as it
    was; on a collection that is not empty a file is written. *)
Theorem export_empty_is_noop (now : Z) (w : World) :
  runState (InlineFilters.handleExport now []) w = (tt, w)
  /\ (forall tx txs,
        files (execState (InlineFilters.handleExport now (tx :: txs)) w) <> files w).
Proof.
  split; [reflexivity|].
  intros tx txs E. rewrite export_nonempty_writes in E.
  apply (f_equal (@List.length _)) in E. rewrite List.length_app in E.
  simpl in E. lia.
Qed.
End WithHost.

Lemma export_record_columns_witness :
  Spec.plain (JS.parseFloat (amount Samples.gasTx)) = true
  /\ Spec.fixedDecimal 6 (JS.toFixed (JS.parseFloat (amount Samples.gasTx)) 6)
  /\ Spec.isRecord (host := JS.utcHost) Samples.gasTx (exportRow (host := JS.utcHost) Samples.gasTx).
Proof.
  pose proof (export_record_columns (host := JS.utcHost) Samples.gasTx)
    as (_ & _ & A & _ & _ & R).
  split; [reflexivity|]. split; [apply A; reflexivity|].
  apply R. split; [reflexivity|].
  intros l p Hl Hp. injection Hl as <-. injection Hp as <-. reflexivity.
Defined.

(** An amount that does not parse is exported as the text NaN, a fee
    whose gas limit does not parse likewise, and an amount of 10^21 in
    exponent notation: none of these records is the one of the
    specification. *)
Lemma export_cell_without_fraction_digits :
  nth 3 (exportRow (host := JS.utcHost) Samples.unknownTx) ("", "")
  = ("Amount (ETH)", "NaN")
  /\ ~ Spec.fixedDecimal 6 "NaN"
  /\ ~ Spec.isRecord (host := JS.utcHost) Samples.unknownTx
        (exportRow (host := JS.utcHost) Samples.unknownTx)
  /\ nth 7 (exportRow (host := JS.utcHost) Samples.badGasTx) ("", "")
     = ("Transaction Fee (ETH)", "NaN")
  /\ ~ Spec.isRecord (host := JS.utcHost) Samples.badGasTx
        (exportRow (host := JS.utcHost) Samples.badGasTx)
  /\ nth 3 (exportRow (host := JS.utcHost) Samples.hugeTx) ("", "")
     = ("Amount (ETH)", "1e+21")
  /\ ~ Spec.isRecord (host := JS.utcHost) Samples.hugeTx
        (exportRow (host := JS.utcHost) Samples.hugeTx).
Proof.
  split; [vm_compute; reflexivity|]. split.
  { intros H. apply fixedDecimal_numeral in H. destruct H as [C _]. discriminate C. }
  split.
  { intros H. apply exportRow_isRecord_iff in H. destruct H as [A _].
    vm_compute in A. discriminate A. }
  split; [vm_compute; reflexivity|]. split.
  { intros H. apply exportRow_isRecord_iff in H. destruct H as [_ F].
    specialize (F "abc" "1" eq_refl eq_refl). vm_compute in F. discriminate F. }
  split; [vm_compute; reflexivity|].
  intros H. apply exportRow_isRecord_iff in H. destruct H as [A _].
  vm_compute in A. discriminate A.
Qed.

(** The record of a sample transaction, evaluated. *)
Example export_record_sample :
  exportRow (host := JS.utcHost) Samples.gasTx
  = [ ("Transaction Hash", "0xe"); ("From Address", "0x1"); ("To Address", "0x2");
      ("Amount (ETH)", "1.500000"); ("Status", "Pending");
      ("Gas Limit", "21000"); ("Gas Price (ETH)", "0.00000002");
      ("Transaction Fee (ETH)", "0.00042000");
      ("Timestamp", "Jan 5, 2024, 03:07 PM");
      ("Date", "2024-01-05T15:07:00.123Z") ].
Proof. vm_compute. reflexivity. Qed.
End ExportProps.

(** ** Search debounce *)
Module SearchProps.
Import SearchBar.






End SearchProps.

(** ** View state controller *)
Module ViewProps.
Import Types View.

Lemma insertBy_length {A : Type} (cmp : A -> A -> Z) (x : A) (l : list A) :
  List.length (JS.insertBy cmp x l) = S (List.length l).
Proof.
  induction l as [|y r IH]; simpl; [reflexivity|].
  destruct (cmp x y <? 0); simpl; [reflexivity | now rewrite IH].
Qed.

(** Sorting keeps the number of rows. *)
Lemma Array_sort_length {A : Type} (cmp : A -> A -> Z) (l : list A) :
  List.length (JS.Array_sort cmp l) = List.length l.
Proof.
  unfold JS.Array_sort.
  assert (G : forall acc,
             List.length (fold_left (fun acc x => JS.insertBy cmp x acc) l acc)
             = (List.length l + List.length acc)%nat).
  { induction l as [|x r IH]; intros acc; simpl; [reflexivity|].
    rewrite IH, insertBy_length. lia. }
  rewrite G. simpl. lia.
Qed.

Lemma pageSize_values (o : TransactionList.PageSizeOption) :
  TransactionList.pageSize o = 10 \/ TransactionList.pageSize o = 15
  \/ TransactionList.pageSize o = 20.
Proof. destruct o; vm_compute; tauto. Qed.

Lemma pageNum_bounds (totalPages currentPage i : Z) :
  1 < totalPages -> 0 <= i < Z.min 5 totalPages ->
  1 <= currentPage <= totalPages ->
  1 <= TransactionList.pageNum totalPages currentPage i <= totalPages.
Proof.
  intros Ht Hi Hp. unfold TransactionList.pageNum.
  destruct (Z.leb_spec totalPages 5); [lia|].
  destruct (Z.leb_spec currentPage 3); [lia|].
  destruct (Z.leb_spec (totalPages - 2) currentPage); lia.
Qed.

Section WithHost.
Context {host : JS.Host}.

Lemma totalPages_deps (v : State) :
  totalPages v = JS.ceilDiv (fst (deps v)) (snd (deps v)).
Proof.
  unfold totalPages, TransactionList.totalPages, rows, deps,
    TransactionList.sortedTransactions.
  now rewrite Array_sort_length.
Qed.

Lemma resetEffect_in_range (v : State) (p : Page.State) (l : TransactionList.State) :
  pageInRange v ->
  (TransactionList.itemsPerPage l = 10 \/ TransactionList.itemsPerPage l = 15
   \/ TransactionList.itemsPerPage l = 20) ->
  (deps (mkState p l) = deps v ->
   1 <= TransactionList.currentPage l <= Z.max 1 (totalPages v)) ->
  pageInRange (mkState p (TransactionList.resetEffect (deps v) (deps (mkState p l)) l)).
Proof.
  intros Hv Hipp Hsame. unfold TransactionList.resetEffect.
  destruct ((fst (deps v) =? fst (deps (mkState p l)))
            && (snd (deps v) =? snd (deps (mkState p l)))) eqn:E.
  - apply andb_true_iff in E as [E1 E2].
    apply Z.eqb_eq in E1, E2.
    assert (D : deps (mkState p l) = deps v).
    { destruct (deps (mkState p l)), (deps v); simpl in *; congruence. }
    split; [|assumption].
    rewrite totalPages_deps. change (deps (mkState p l)) with (deps (mkState p l)).
    replace (deps (mkState p l)) with (deps v) by (now rewrite <- D).
    rewrite <- totalPages_deps. now apply Hsame.
  - split; [simpl; lia | assumption].
Qed.

(** Every state of the view keeps the current page inside
    [1, max(1, totalPages)], the page-reset effect being taken
    together with the render that triggers it. *)
Lemma currentPage_stays_in_range (v : State) : reachable v -> pageInRange v.
Proof.
  induction 1 as [|v i Hr IH].
  - split; [|right; left; reflexivity]. vm_compute. split; discriminate.
  - unfold step. destruct (enabled v i) eqn:En; [|assumption].
    destruct IH as [Hp Hipp].
    assert (Hv : pageInRange v) by (split; assumption).
    destruct i; cbn [handle pageState listState];
      try (apply resetEffect_in_range; [assumption | assumption | intros _; assumption]).
    + (* Sort *)
      apply resetEffect_in_range; [assumption | |].
      * unfold TransactionList.handleSort.
        destruct (TransactionList.sortField_eqb _ _); assumption.
      * intros _. unfold TransactionList.handleSort.
        destruct (TransactionList.sortField_eqb _ _); simpl; lia.
    + (* ItemsPerPage *)
      apply resetEffect_in_range; [assumption | apply pageSize_values |].
      intros _. simpl. lia.
    + (* Previous *)
      apply resetEffect_in_range; [assumption | assumption |].
      intros _. simpl. lia.
    + (* Next *)
      simpl in En. apply andb_true_iff in En as [En _]. apply Z.ltb_lt in En.
      apply resetEffect_in_range; [assumption | assumption |].
      intros _. simpl. lia.
    + (* PageButton *)
      simpl in En. apply andb_true_iff in En as [En E3].
      apply andb_true_iff in En as [E1 E2].
      apply Z.ltb_lt in E1, E3. apply Z.leb_le in E2.
      apply resetEffect_in_range; [assumption | assumption |].
      intros _. cbn [TransactionList.setCurrentPage TransactionList.currentPage].
      pose proof (pageNum_bounds (totalPages v)
                    (TransactionList.currentPage (listState v)) i
                    E1 ltac:(lia) ltac:(lia)).
      lia.
Qed.
(** A step that changes the filtered length or the page size leaves
    the view on page 1. *)
Lemma page_reset_on_change (v : State) (i : Intent) :
  enabled v i = true ->
  deps (handle v i) <> deps v ->
  TransactionList.currentPage (listState (step v i)) = 1.
Proof.
  intros En Hd. unfold step. rewrite En. cbn [listState].
  unfold TransactionList.resetEffect.
  destruct ((fst (deps v) =? fst (deps (handle v i)))
            && (snd (deps v) =? snd (deps (handle v i)))) eqn:E; [|reflexivity].
  apply andb_true_iff in E as [E1 E2]. apply Z.eqb_eq in E1, E2.
  exfalso. apply Hd.
  destruct (deps (handle v i)), (deps v); simpl in *; congruence.
Qed.

(** Choosing a page size leaves the view on page 1. *)
Lemma page_reset_on_page_size (v : State) (o : TransactionList.PageSizeOption) :
  enabled v (ItemsPerPage o) = true ->
  TransactionList.currentPage (listState (step v (ItemsPerPage o))) = 1.
Proof.
  intros En. unfold step. rewrite En. cbn [listState handle].
  unfold TransactionList.resetEffect.
  destruct (_ && _); reflexivity.
Qed.
End WithHost.

(** C3 fails on the sources: on page 2 of the sixteen rows matching
    the query [a], changing the query to [b] shows sixteen other
    rows, the filtered length is unchanged, and the current page
    stays 2 instead of being reset to 1. *)
Theorem search_change_keeps_page :
  let v := run (host := JS.utcHost) initial
               [Loaded Samples.twoGroups; SearchChanged "a"; Next] in
  let v' := step (host := JS.utcHost) v (SearchChanged "b") in
  TransactionList.currentPage (listState v) = 2
  /\ Page.searchQuery (pageState v) = "a"
  /\ Page.searchQuery (pageState v') = "b"
  /\ visibleRows (host := JS.utcHost) v = [Samples.pendingTx]
  /\ visibleRows (host := JS.utcHost) v' = [Samples.confirmedTx]
  /\ TransactionList.currentPage (listState v') = 2.
Proof. vm_compute. repeat split; reflexivity. Qed.
End ViewProps.


(** ** Pages of the list *)
Module PagesProps.
Import Types TransactionList.

(** A page of a 1-based number is a chunk of the list. *)
Lemma paginated_chunk (l : list Transaction) (p ipp : Z) :
  1 <= p -> 0 < ipp ->
  paginatedTransactions l p ipp
  = firstn (Z.to_nat ipp) (skipn (Z.to_nat (p - 1) * Z.to_nat ipp) l).
Proof.
  intros Hp Hd. unfold paginatedTransactions, endIndex, startIndex.
  rewrite PaginationProps.slice_indexRange by nia.
  rewrite PaginationProps.indexRange_skip by nia.
  f_equal; [lia|]. f_equal. nia.
Qed.

Lemma chunks_concat {A : Type} (k n : nat) (l : list A) :
  (List.length l <= n * k)%nat ->
  List.concat (map (fun i => firstn k (skipn (i * k) l)) (seq 0 n)) = l.
Proof.
  revert l. induction n as [|n IH]; intros l H.
  - destruct l; [reflexivity | simpl in H; lia].
  - cbn [seq map List.concat]. rewrite <- seq_shift, map_map.
    replace (map (fun i => firstn k (skipn (S i * k) l)) (seq 0 n))
      with (map (fun i => firstn k (skipn (i * k) (skipn k l))) (seq 0 n)).
    + rewrite IH by (rewrite length_skipn; lia).
      cbn [Nat.mul skipn]. apply firstn_skipn.
    + apply map_ext. intros i. rewrite skipn_skipn. f_equal. f_equal. lia.
Qed.

(** X1: the pages 1 to totalPages, one after the other, are the whole
    sorted list: no row is left out and none is shown twice. *)
Theorem pages_cover_list (sorted : list Transaction) (itemsPerPage : Z) :
  0 < itemsPerPage ->
  List.concat (map (fun i => paginatedTransactions sorted (Z.of_nat i + 1) itemsPerPage)
              (seq 0 (Z.to_nat (totalPages sorted itemsPerPage))))
  = sorted.
Proof.
  intros Hd.
  rewrite (map_ext _ (fun i => firstn (Z.to_nat itemsPerPage)
                                      (skipn (i * Z.to_nat itemsPerPage) sorted))).
  - apply chunks_concat.
    pose proof (PaginationProps.ceilDiv_bounds
                  (Z.of_nat (List.length sorted)) itemsPerPage Hd) as B.
    fold (totalPages sorted itemsPerPage) in B. nia.
  - intros i. rewrite paginated_chunk by lia. do 3 f_equal. lia.
Qed.

Lemma pages_cover_list_witness :
  0 < 15
  /\ List.concat (map (fun i => paginatedTransactions Samples.thirtySeven (Z.of_nat i + 1) 15)
                 (seq 0 (Z.to_nat (totalPages Samples.thirtySeven 15))))
     = Samples.thirtySeven.
Proof.
  split; [lia|]. exact (pages_cover_list Samples.thirtySeven 15 ltac:(lia)).
Defined.

(** X2: every page before the last holds exactly itemsPerPage rows,
    the last page holds between 1 and itemsPerPage rows, a page past
    the last is empty, and on every page from 1 to totalPages the
    header range first-last counts the rows that are shown. *)
Theorem page_sizes (sorted : list Transaction) (currentPage itemsPerPage : Z) :
  0 < itemsPerPage -> 1 <= currentPage ->
  let rows := Z.of_nat (List.length (paginatedTransactions sorted currentPage itemsPerPage)) in
  let pages := totalPages sorted itemsPerPage in
  (currentPage < pages -> rows = itemsPerPage)
  /\ (currentPage = pages -> 1 <= rows <= itemsPerPage)
  /\ (pages < currentPage -> paginatedTransactions sorted currentPage itemsPerPage = [])
  /\ (currentPage <= pages ->
      let '(first, last) := showingRange sorted currentPage itemsPerPage in
      last - first + 1 = rows).
Proof.
  intros Hd Hp rows pages.
  pose proof (PaginationProps.ceilDiv_bounds
                (Z.of_nat (List.length sorted)) itemsPerPage Hd) as B.
  fold (totalPages sorted itemsPerPage) in B. fold pages in B.
  assert (E : rows = Z.max 0 (Z.min (currentPage * itemsPerPage)
                                    (Z.of_nat (List.length sorted))
                              - Z.min ((currentPage - 1) * itemsPerPage)
                                      (Z.of_nat (List.length sorted)))).
  { subst rows. unfold paginatedTransactions, endIndex, startIndex.
    rewrite PaginationProps.slice_length by nia. f_equal. f_equal. f_equal. ring. }
  repeat split.
  - intros H. nia.
  - nia.
  - nia.
  - intros H. destruct (List.length_zero_iff_nil
                          (paginatedTransactions sorted currentPage itemsPerPage)) as [Z0 _].
    apply Z0. fold rows in E. subst rows. nia.
  - intros H. unfold showingRange, endIndex, startIndex. nia.
Qed.

Lemma page_sizes_witness :
  0 < 15 /\ 1 <= 3
  /\ (3 = totalPages Samples.thirtySeven 15 ->
      1 <= Z.of_nat (List.length (paginatedTransactions Samples.thirtySeven 3 15)) <= 15).
Proof.
  split; [lia|]. split; [lia|].
  exact (proj1 (proj2 (page_sizes Samples.thirtySeven 3 15 ltac:(lia) ltac:(lia)))).
Defined.

Lemma pageNum_offset (totalPages currentPage : Z) :
  exists first,
    (forall i, pageNum totalPages currentPage i = first + i)
    /\ (1 < totalPages -> 1 <= currentPage <= totalPages ->
        1 <= first
        /\ first + Z.min 5 totalPages - 1 <= totalPages
        /\ first <= currentPage < first + Z.min 5 totalPages).
Proof.
  unfold pageNum.
  destruct (Z.leb_spec totalPages 5).
  - exists 1. split; [intros; lia | lia].
  - destruct (Z.leb_spec currentPage 3).
    + exists 1. split; [intros; lia | lia].
    + destruct (Z.leb_spec (totalPages - 2) currentPage).
      * exists (totalPages - 4). split; [intros; lia | lia].
      * exists (currentPage - 2). split; [intros; lia | lia].
Qed.

(** X3: when the page bar is shown and the current page is a page of
    the list, the page buttons are min(5, totalPages) consecutive page
    numbers, all of them pages of the list, and the current page is
    one of them. *)
Theorem page_buttons_window (totalPages currentPage : Z) :
  1 < totalPages -> 1 <= currentPage <= totalPages ->
  (exists first,
     pageButtons totalPages currentPage
     = map (fun i => first + Z.of_nat i) (seq 0 (Z.to_nat (Z.min 5 totalPages)))
     /\ 1 <= first /\ first + Z.min 5 totalPages - 1 <= totalPages)
  /\ In currentPage (pageButtons totalPages currentPage)
  /\ (forall n, In n (pageButtons totalPages currentPage) -> 1 <= n <= totalPages).
Proof.
  intros Ht Hc.
  destruct (pageNum_offset totalPages currentPage) as (first & Hf & Hb).
  destruct (Hb Ht Hc) as (B1 & B2 & B3).
  assert (E : pageButtons totalPages currentPage
              = map (fun i => first + Z.of_nat i)
                    (seq 0 (Z.to_nat (Z.min 5 totalPages)))).
  { unfold pageButtons. apply map_ext. intros i. apply Hf. }
  split; [|split].
  - exists first. repeat split; assumption.
  - rewrite E. apply in_map_iff. exists (Z.to_nat (currentPage - first)).
    split; [lia|]. apply in_seq. lia.
  - intros n Hn. rewrite E in Hn. apply in_map_iff in Hn as (i & <- & Hi).
    apply in_seq in Hi. lia.
Qed.

Lemma page_buttons_window_witness :
  1 < 9 /\ 1 <= 7 <= 9 /\ In 7 (pageButtons 9 7).
Proof.
  split; [lia|]. split; [lia|].
  exact (proj1 (proj2 (page_buttons_window 9 7 ltac:(lia) ltac:(lia)))).
Defined.
End PagesProps.

(** ** Ordering of the list *)
Module SortProps.
Import Types TransactionList.

(** X4: a click on a column header sorts by that column, from page 1,
    leaving the page size alone; a column that was not the sort column
    starts in descending order; every further click on the same header
    reverses the direction, so that two more clicks give the same
    state again. *)
Theorem handleSort_clicks (field : SortField) (st : State) :
  let s1 := handleSort field st in
  sortField s1 = field /\ currentPage s1 = 1 /\ itemsPerPage s1 = itemsPerPage st
  /\ (sortField st <> field -> sortDirection s1 = desc)
  /\ (sortField st = field -> sortDirection s1 <> sortDirection st)
  /\ sortDirection (handleSort field s1) <> sortDirection s1
  /\ handleSort field (handleSort field s1) = s1.
Proof.
  destruct st as [f d p n]. unfold handleSort. cbn [sortField sortDirection].
  destruct field, f, d; cbn; repeat split; congruence.
Qed.

Lemma insertBy_perm {A : Type} (cmp : A -> A -> Z) (x : A) (l : list A) :
  Permutation (JS.insertBy cmp x l) (x :: l).
Proof.
  induction l as [|y r IH]; simpl; [reflexivity|].
  destruct (cmp x y <? 0); [reflexivity|].
  rewrite IH. apply perm_swap.
Qed.

Lemma Array_sort_perm {A : Type} (cmp : A -> A -> Z) (l : list A) :
  Permutation (JS.Array_sort cmp l) l.
Proof.
  unfold JS.Array_sort.
  assert (G : forall acc,
             Permutation (fold_left (fun acc x => JS.insertBy cmp x acc) l acc)
                         (l ++ acc)).
  { induction l as [|x r IH]; intros acc; simpl; [reflexivity|].
    rewrite IH, insertBy_perm. symmetry. apply Permutation_middle. }
  rewrite G. now rewrite app_nil_r.
Qed.

Section WithHost.
Context {host : JS.Host}.

(** X5: whatever the sort field, the direction and the keys, also
    unparseable ones, the sorted list holds the same transactions as
    the list it is given, each as many times. *)
Theorem sorted_is_permutation
    (transactions : list Transaction) (field : SortField) (direction : SortDirection) :
  Permutation (sortedTransactions transactions field direction) transactions
  /\ List.length (sortedTransactions transactions field direction)
     = List.length transactions.
Proof.
  split.
  - apply Array_sort_perm.
  - apply Permutation_length, Array_sort_perm.
Qed.
End WithHost.

(** Insertion by a comparison that follows a key keeps a list ordered
    by that key. *)
Section ByKey.
Context {A : Type} (cmp : A -> A -> Z) (key : A -> Z).
Hypothesis cmp_key : forall x y, cmp x y < 0 <-> key x < key y.

Lemma insertBy_Forall (P : A -> Prop) (x : A) (l : list A) :
  P x -> Forall P l -> Forall P (JS.insertBy cmp x l).
Proof.
  intros Hx Hl. induction Hl as [|y r Hy Hr IH]; simpl.
  - constructor; [assumption | constructor].
  - destruct (cmp x y <? 0); repeat constructor; assumption.
Qed.

Lemma insertBy_sorted (x : A) (l : list A) :
  StronglySorted (fun a b => key a <= key b) l ->
  StronglySorted (fun a b => key a <= key b) (JS.insertBy cmp x l).
Proof.
  induction 1 as [|y r Hs IH Hy]; simpl.
  - repeat constructor.
  - destruct (Z.ltb_spec (cmp x y) 0) as [L|L].
    + apply cmp_key in L. constructor.
      * constructor; assumption.
      * constructor; [lia|].
        eapply Forall_impl; [|exact Hy]. simpl. intros z Hz. lia.
    + constructor; [assumption|].
      apply insertBy_Forall; [|assumption].
      destruct (Z_lt_le_dec (key x) (key y)) as [K|K]; [|assumption].
      apply cmp_key in K. lia.
Qed.

Lemma Array_sort_sorted (l : list A) :
  StronglySorted (fun a b => key a <= key b) (JS.Array_sort cmp l).
Proof.
  unfold JS.Array_sort.
  assert (G : forall acc,
             StronglySorted (fun a b => key a <= key b) acc ->
             StronglySorted (fun a b => key a <= key b)
               (fold_left (fun acc x => JS.insertBy cmp x acc) l acc)).
  { induction l as [|x r IH]; intros acc Hacc; simpl; [assumption|].
    apply IH, insertBy_sorted, Hacc. }
  apply G. constructor.
Qed.
End ByKey.

Section WithHostStatus.
Context {host : JS.Host}.

Lemma compare_status_asc (a b : Transaction) :
  compareFn SF_status asc a b < 0 <-> statusRank (status a) < statusRank (status b).
Proof.
  unfold compareFn, sortValue, key_gt.
  destruct (status a), (status b); vm_compute; split; congruence.
Qed.

Lemma compare_status_desc (a b : Transaction) :
  compareFn SF_status desc a b < 0
  <-> - statusRank (status a) < - statusRank (status b).
Proof.
  unfold compareFn, sortValue, key_gt.
  destruct (status a), (status b); vm_compute; split; congruence.
Qed.

(** X6: sorted by status in ascending order, the confirmed
    transactions come first, then the failed, then the pending ones
    (the order in which < puts the status strings); in descending
    order they come the other way round. *)
Theorem sorted_by_status (transactions : list Transaction) :
  StronglySorted (fun a b => statusRank (status a) <= statusRank (status b))
                 (sortedTransactions transactions SF_status asc)
  /\ StronglySorted (fun a b => statusRank (status b) <= statusRank (status a))
                    (sortedTransactions transactions SF_status desc).
Proof.
  split.
  - apply (Array_sort_sorted _ (fun t => statusRank (status t))), compare_status_asc.
  - pose proof (Array_sort_sorted (compareFn SF_status desc)
                  (fun t => - statusRank (status t)) compare_status_desc
                  transactions) as S.
    unfold sortedTransactions.
    induction S as [|x l Hs IH Hx]; constructor; [assumption|].
    eapply Forall_impl; [|exact Hx]. simpl. intros z Hz. lia.
Qed.
End WithHostStatus.

(** [<] on Numbers and on strings never holds both ways. *)
Lemma SFcompare_antisym (x y : JS.number) :
  SFcompare y x = option_map CompOpp (SFcompare x y).
Proof.
  destruct x as [sx|sx| |sx mx ex], y as [sy|sy| |sy my ey];
    try reflexivity;
    try (destruct sx; reflexivity); try (destruct sy; reflexivity);
    try (destruct sx, sy; reflexivity).
  simpl. destruct sx, sy; try reflexivity;
    rewrite (Z.compare_antisym ex ey); destruct (ex ?= ey); simpl; try reflexivity;
    rewrite ?Pos.compare_cont_antisym; reflexivity.
Qed.

Lemma key_lt_asym (a b : sortKey) : key_lt a b = true -> key_lt b a = false.
Proof.
  destruct a as [x|s], b as [y|t]; simpl; try discriminate.
  - unfold JS.Number_lt, SFltb. rewrite (SFcompare_antisym x y).
    destruct (SFcompare x y) as [[]|]; simpl; congruence.
  - unfold JS.String_lt, String.ltb. rewrite (String.compare_antisym t s).
    destruct (String.compare s t); simpl; congruence.
Qed.

Section WithHostCompare.
Context {host : JS.Host}.

(** X7: the comparison function is antisymmetric, for every field,
    direction and pair of transactions, unparseable keys included:
    swapping the arguments negates the result; and reversing the
    direction negates it too. *)
Theorem compareFn_antisymmetric
    (field : SortField) (direction : SortDirection) (a b : Transaction) :
  compareFn field direction b a = - compareFn field direction a b
  /\ compareFn field desc a b = - compareFn field asc a b.
Proof.
  unfold compareFn, key_gt.
  set (x := sortValue field a). set (y := sortValue field b).
  pose proof (key_lt_asym x y) as H1. pose proof (key_lt_asym y x) as H2.
  destruct (key_lt x y), (key_lt y x), direction;
    try (specialize (H1 eq_refl); discriminate);
    split; reflexivity.
Qed.
End WithHostCompare.
End SortProps.

(** ** Status selection and clear *)
Module SelectionProps.
Import Types InlineFilters.

Lemma status_eqb_eq (a b : TransactionStatus) : status_eqb a b = true <-> a = b.
Proof. destruct a, b; simpl; split; congruence. Qed.

Lemma includes_In (sel : list TransactionStatus) (s : TransactionStatus) :
  JS.Array_includes status_eqb sel s = true <-> In s sel.
Proof.
  unfold JS.Array_includes. rewrite existsb_exists. split.
  - intros (x & Hx & E). apply status_eqb_eq in E. now subst.
  - intros H. exists s. split; [assumption | now apply status_eqb_eq].
Qed.

(** X8: ticking a status box flips the membership of that status in
    the selection and of no other; a selection without repetition
    stays without repetition. *)
Theorem toggle_flips_one (sel : list TransactionStatus) (s x : TransactionStatus) :
  (In x (handleStatusToggle sel s)
   <-> if status_eqb x s then ~ In s sel else In x sel)
  /\ (NoDup sel -> NoDup (handleStatusToggle sel s)).
Proof.
  unfold handleStatusToggle.
  destruct (JS.Array_includes status_eqb sel s) eqn:E.
  - apply includes_In in E. split.
    + rewrite filter_In. destruct (status_eqb x s) eqn:X; simpl.
      * intuition discriminate.
      * intuition.
    + intros H. now apply NoDup_filter.
  - assert (N : ~ In s sel).
    { intros H. apply includes_In in H. congruence. }
    split.
    + rewrite in_app_iff. simpl. destruct (status_eqb x s) eqn:X.
      * apply status_eqb_eq in X. subst x. intuition.
      * assert (s <> x).
        { intros ->. assert (status_eqb x x = true) by now apply status_eqb_eq.
          congruence. }
        intuition.
    + intros H. apply NoDup_app; [assumption | repeat constructor; intros [] | ].
      intros y Hy [<-|[]]. contradiction.
Qed.

Lemma selectable_NoDup (sel : list TransactionStatus) : selectable sel -> NoDup sel.
Proof.
  induction 1 as [|sel s _ IH|sel _ IH].
  - constructor.
  - now apply toggle_flips_one.
  - unfold handleSelectAll. destruct (Nat.eqb _ _); [constructor|].
    repeat constructor; simpl; intuition discriminate.
Qed.

Lemma all_statuses_complete (s : TransactionStatus) : In s ALL_STATUSES.
Proof. destruct s; simpl; tauto. Qed.

(** X9: a selection made with the status boxes never repeats a
    status and holds at most three; the All Status box is checked
    exactly when every status is selected, and the button text is
    Status for none, the label of the status for one, 2 Selected for
    two and All Status for three. *)
Theorem selection_is_a_set (sel : list TransactionStatus) :
  selectable sel ->
  NoDup sel
  /\ (List.length sel <= 3)%nat
  /\ (allSelected sel = true <-> forall s, In s sel)
  /\ (noneSelected sel = true <-> sel = [])
  /\ getStatusLabel sel
     = match sel with
       | [] => "Status"
       | [s] => statusLabel s
       | [_; _] => "2 Selected"
       | _ => "All Status"
       end.
Proof.
  intros H. pose proof (selectable_NoDup sel H) as N.
  assert (L : (List.length sel <= 3)%nat).
  { apply (NoDup_incl_length N (l' := ALL_STATUSES)).
    intros s _. apply all_statuses_complete. }
  split; [assumption|]. split; [assumption|]. split; [|split].
  - unfold allSelected. rewrite Nat.eqb_eq. split.
    + intros E s.
      apply (NoDup_length_incl N (l' := ALL_STATUSES)).
      * rewrite E. apply le_n.
      * intros x _. apply all_statuses_complete.
      * apply all_statuses_complete.
    + intros A. apply Nat.le_antisymm; [exact L|].
      apply (NoDup_incl_length (l := ALL_STATUSES)).
      * repeat constructor; simpl; intuition discriminate.
      * intros s _. apply A.
  - unfold noneSelected. rewrite Nat.eqb_eq. apply List.length_zero_iff_nil.
  - destruct sel as [|a [|b [|c [|d r]]]]; try reflexivity.
    + destruct a; reflexivity.
    + simpl in L. lia.
Qed.

Lemma selection_is_a_set_witness :
  selectable (handleStatusToggle (handleStatusToggle [] PENDING) FAILED)
  /\ NoDup (handleStatusToggle (handleStatusToggle [] PENDING) FAILED).
Proof.
  assert (S : selectable (handleStatusToggle (handleStatusToggle [] PENDING) FAILED))
    by (do 2 apply selectable_toggle; apply selectable_none).
  split; [exact S|]. exact (proj1 (selection_is_a_set _ S)).
Defined.

Section WithHost.
Context {host : JS.Host}.

Lemma passesStatus_all (sel : list TransactionStatus) (tx : Transaction) :
  (forall s, In s sel) -> Spec.passesStatus sel tx = true.
Proof.
  intros A. destruct sel as [|a r] eqn:E; [reflexivity|]. rewrite <- E in *.
  rewrite FilterProps.passesStatus_nonempty by (rewrite E; discriminate).
  apply includes_In, A.
Qed.

(** X10: with every status selected the list is filtered exactly as
    with none selected, whatever the date bounds and the query: a
    click on All Status changes what is selected, not what is
    shown, when it selects all. *)
Theorem all_selected_filters_like_none
    (txs : list Transaction) (sel : list TransactionStatus)
    (from to : option JS.timeValue) (q : string) :
  (forall s, In s sel) ->
  Page.filteredTransactions txs sel from to q
  = Page.filteredTransactions txs [] from to q.
Proof.
  intros A. rewrite !FilterProps.filteredTransactions_filter.
  apply filter_ext. intros tx. unfold Spec.survives.
  now rewrite (passesStatus_all sel tx A).
Qed.

(** X11: clearing the filters shows every loaded transaction and
    hides the clear button; and whenever the clear button is hidden,
    the only criterion that can be active is the search query. *)
Theorem clear_shows_everything (st : Page.State) :
  Page.filtered (Page.handleClearFilters st) = Page.transactions st
  /\ hasActiveFilters (Page.selectedStatuses (Page.handleClearFilters st))
                      (Page.dateFrom (Page.handleClearFilters st))
                      (Page.dateTo (Page.handleClearFilters st)) = false
  /\ (hasActiveFilters (Page.selectedStatuses st) (Page.dateFrom st) (Page.dateTo st)
      = false ->
      Page.filtered st
      = Page.filteredTransactions (Page.transactions st) [] None None
                                  (Page.searchQuery st)).
Proof.
  split; [|split].
  - change (Page.filtered (Page.handleClearFilters st))
      with (Page.filteredTransactions (Page.transactions st) [] None None "").
    rewrite FilterProps.filteredTransactions_filter. apply FilterProps.filter_true.
  - reflexivity.
  - unfold hasActiveFilters, Page.filtered.
    destruct (Page.selectedStatuses st), (Page.dateFrom st), (Page.dateTo st);
      simpl; try discriminate. reflexivity.
Qed.
End WithHost.

Lemma all_selected_filters_like_none_witness :
  (forall s, In s (handleSelectAll []))
  /\ Page.filteredTransactions (host := JS.utcHost)
       Samples.twoGroups (handleSelectAll []) None None "a"
     = Page.filteredTransactions (host := JS.utcHost) Samples.twoGroups [] None None "a".
Proof.
  split; [exact all_statuses_complete|].
  exact (all_selected_filters_like_none (host := JS.utcHost)
           Samples.twoGroups (handleSelectAll []) None None "a" all_statuses_complete).
Defined.
End SelectionProps.

(** ** Addresses *)
Module AddressProps.
Import Format.

Lemma take_drop (n : nat) (s : string) :
  String.substring 0 n s ++ JS.sliceFrom s n = s.
Proof.
  revert s. induction n as [|n IH]; intros s.
  - destruct s; reflexivity.
  - destruct s as [|c r]; [reflexivity|]. simpl. now rewrite IH.
Qed.

Lemma length_take (n : nat) (s : string) :
  (n <= String.length s)%nat -> String.length (String.substring 0 n s) = n.
Proof.
  revert s. induction n as [|n IH]; intros s H.
  - destruct s; reflexivity.
  - destruct s as [|c r]; simpl in *; [lia|]. rewrite IH; lia.
Qed.

Lemma length_drop (n : nat) (s : string) :
  String.length (JS.sliceFrom s n) = (String.length s - n)%nat.
Proof.
  revert s. induction n as [|n IH]; intros s.
  - destruct s; simpl; lia.
  - destruct s as [|c r]; simpl; [reflexivity | apply IH].
Qed.

Lemma drop_drop (n k : nat) (s : string) :
  JS.sliceFrom (JS.sliceFrom s n) k = JS.sliceFrom s (n + k).
Proof.
  revert s. induction n as [|n IH]; intros s.
  - destruct s; reflexivity.
  - destruct s as [|c r]; simpl; [destruct k; reflexivity | apply IH].
Qed.

(** X12: an address of fewer than 10 characters is shown as it is; a
    longer one is shown as its first 6 characters, three dots and its
    last 4 characters, 13 characters in all, so that an address of 10
    to 12 characters is shown longer than it is. *)
Theorem truncateAddress_shape (address : string) :
  ((String.length address < 10)%nat -> truncateAddress address = address)
  /\ ((10 <= String.length address)%nat ->
      exists first middle last,
        address = first ++ middle ++ last
        /\ String.length first = 6%nat /\ String.length last = 4%nat
        /\ truncateAddress address = first ++ "..." ++ last
        /\ String.length (truncateAddress address) = 13%nat).
Proof.
  unfold truncateAddress. split.
  - intros H.
    replace (Z.of_nat (String.length address) <? 10) with true
      by (symmetry; apply Z.ltb_lt; lia).
    now rewrite orb_true_r.
  - intros H.
    replace (Z.of_nat (String.length address) <? 10) with false
      by (symmetry; apply Z.ltb_ge; lia).
    replace (String.eqb address "") with false
      by (symmetry; apply String.eqb_neq; intros ->; simpl in H; lia).
    cbn [orb].
    set (n := String.length address) in *.
    exists (String.substring 0 6 address),
           (String.substring 0 (n - 10) (JS.sliceFrom address 6)),
           (JS.sliceLast address 4).
    assert (L1 : String.length (String.substring 0 6 address) = 6%nat)
      by (apply length_take; lia).
    assert (L2 : String.length (JS.sliceLast address 4) = 4%nat)
      by (unfold JS.sliceLast; rewrite length_drop; fold n; lia).
    repeat split; try assumption.
    + unfold JS.sliceLast. fold n.
      replace (n - 4)%nat with (6 + (n - 10))%nat by lia.
      rewrite <- drop_drop, take_drop, take_drop. reflexivity.
    + rewrite !ExportProps.string_length_app, L1, L2. reflexivity.
Qed.

Lemma truncateAddress_shape_witness :
  (10 <= String.length "0x742d35Cc6634C0532925a3b844Bc9e7595f0bEb0")%nat
  /\ exists first middle last,
       "0x742d35Cc6634C0532925a3b844Bc9e7595f0bEb0" = first ++ middle ++ last
       /\ String.length first = 6%nat /\ String.length last = 4%nat
       /\ truncateAddress "0x742d35Cc6634C0532925a3b844Bc9e7595f0bEb0"
          = first ++ "..." ++ last
       /\ String.length (truncateAddress "0x742d35Cc6634C0532925a3b844Bc9e7595f0bEb0")
          = 13%nat.
Proof.
  assert (H : (10 <= String.length "0x742d35Cc6634C0532925a3b844Bc9e7595f0bEb0")%nat)
    by (vm_compute; lia).
  split; [exact H|].
  exact (proj2 (truncateAddress_shape "0x742d35Cc6634C0532925a3b844Bc9e7595f0bEb0") H).
Defined.

Lemma matchesAddress_shape (s : string) :
  matchesAddress s = true ->
  String.length s = 42%nat /\ String.prefix "0x" s = true.
Proof.
  unfold matchesAddress.
  destruct s as [|c [|d r]]; try discriminate.
  - destruct c as [[] [] [] [] [] [] [] []]; discriminate.
  - destruct (Ascii.eqb_spec c "0") as [->|N].
    + destruct (Ascii.eqb_spec d "x") as [->|M].
      * intros H. apply andb_true_iff in H as [H _]. apply Nat.eqb_eq in H.
        split; [simpl; lia|]. simpl. now destruct r.
      * intros H. exfalso.
        destruct d as [[] [] [] [] [] [] [] []]; try discriminate; now apply M.
    + intros H. exfalso.
      destruct c as [[] [] [] [] [] [] [] []]; try discriminate; now apply N.
Qed.

(** X13: the address validator accepts an address exactly when, once
    trimmed, it is 0x followed by 40 hexadecimal digits, in any mix of
    upper and lower case; the invalid-checksum message is never
    returned, for no input: the EIP-55 checksum is not verified. *)
Theorem address_accepted_iff (address : string) :
  (getEthereumAddressError address = None
   <-> matchesAddress (JS.trim address) = true)
  /\ getEthereumAddressError address
     <> Some "Invalid checksum. Please use a valid checksummed address or lowercase address".
Proof.
  unfold getEthereumAddressError, isValidChecksumAddress.
  destruct (String.eqb_spec address "") as [->|Hne].
  { split; [split; discriminate | discriminate]. }
  destruct (matchesAddress (JS.trim address)) eqn:M.
  - destruct (matchesAddress_shape _ M) as [L P]. rewrite L, P. cbn.
    rewrite andb_false_r. split; [tauto | discriminate].
  - cbn [negb andb].
    destruct (Nat.eqb _ 0); [split; [split; discriminate | discriminate]|].
    destruct (negb _); [split; [split; discriminate | discriminate]|].
    destruct (_ <? 42); [split; [split; discriminate | discriminate]|].
    destruct (42 <? _); split; try (split; discriminate); discriminate.
Qed.
End AddressProps.

(** ** Numeric input of the creation form *)
Module NumericInputProps.
Import Format CreateTransactionForm.

Lemma filter_keeps_accepted (p : ascii -> bool) (s : string) :
  allChars p (JS.filterString p s) = true.
Proof.
  induction s as [|c r IH]; simpl; [reflexivity|].
  destruct (p c) eqn:E; simpl; [now rewrite E | assumption].
Qed.

Lemma filter_accepted (p : ascii -> bool) (s : string) :
  allChars p s = true -> JS.filterString p s = s.
Proof.
  induction s as [|c r IH]; simpl; [reflexivity|].
  intros H. apply andb_true_iff in H as [H1 H2]. now rewrite H1, IH.
Qed.

Lemma filter_none (p : ascii -> bool) (s : string) :
  allChars (fun c => negb (p c)) s = true -> JS.filterString p s = "".
Proof.
  induction s as [|c r IH]; simpl; [reflexivity|].
  intros H. apply andb_true_iff in H as [H1 H2].
  apply negb_true_iff in H1. now rewrite H1, IH.
Qed.

Lemma filter_app (p : ascii -> bool) (a b : string) :
  JS.filterString p (a ++ b) = JS.filterString p a ++ JS.filterString p b.
Proof.
  induction a as [|c r IH]; simpl; [reflexivity|].
  destruct (p c); simpl; now rewrite IH.
Qed.

Lemma filter_filter_weaker (p q : ascii -> bool) (s : string) :
  (forall c, p c = true -> q c = true) ->
  JS.filterString p (JS.filterString q s) = JS.filterString p s.
Proof.
  intros H. induction s as [|c r IH]; simpl; [reflexivity|].
  destruct (q c) eqn:Q; simpl.
  - destruct (p c); now rewrite IH.
  - destruct (p c) eqn:P; [|assumption]. apply H in P. congruence.
Qed.

Lemma allChars_app (p : ascii -> bool) (a b : string) :
  allChars p (a ++ b) = allChars p a && allChars p b.
Proof.
  induction a as [|c r IH]; simpl; [reflexivity|].
  now rewrite IH, andb_assoc.
Qed.

Lemma allChars_weaken (p q : ascii -> bool) (s : string) :
  (forall c, p c = true -> q c = true) -> allChars p s = true -> allChars q s = true.
Proof.
  intros H. induction s as [|c r IH]; simpl; [reflexivity|].
  intros A. apply andb_true_iff in A as [A1 A2]. now rewrite (H c A1), IH.
Qed.

(** *** split and join *)

Lemma split_not_nil (sep : ascii) (s : string) : JS.split sep s <> [].
Proof.
  induction s as [|c r IH]; simpl; [discriminate|].
  destruct (Ascii.eqb c sep); [discriminate|].
  destruct (JS.split sep r); [contradiction | discriminate].
Qed.

(** The parts of a split, joined by the separator, are the string. *)
Lemma split_join (sep : ascii) (s : string) :
  String.concat (String sep "") (JS.split sep s) = s.
Proof.
  induction s as [|c r IH]; [reflexivity|]. simpl.
  pose proof (split_not_nil sep r) as N.
  destruct (Ascii.eqb_spec c sep) as [->|Hc].
  - destruct (JS.split sep r) as [|q qs]; [contradiction|].
    simpl in *. now rewrite IH.
  - destruct (JS.split sep r) as [|q qs]; [contradiction|].
    destruct qs; simpl in *; now rewrite <- IH.
Qed.

(** One part more than there are separators. *)
Lemma split_length (sep : ascii) (s : string) :
  List.length (JS.split sep s)
  = S (String.length (JS.filterString (Ascii.eqb sep) s)).
Proof.
  induction s as [|c r IH]; [reflexivity|]. simpl.
  pose proof (split_not_nil sep r) as N.
  rewrite (Ascii.eqb_sym sep c).
  destruct (Ascii.eqb c sep); simpl.
  - now rewrite IH.
  - destruct (JS.split sep r); [contradiction | exact IH].
Qed.

Lemma split_parts (p : ascii -> bool) (sep : ascii) (s : string) :
  allChars p s = true ->
  Forall (fun q => allChars (fun c => p c && negb (Ascii.eqb c sep)) q = true)
         (JS.split sep s).
Proof.
  induction s as [|c r IH]; simpl; intros H.
  - repeat constructor.
  - apply andb_true_iff in H as [H1 H2]. specialize (IH H2).
    pose proof (split_not_nil sep r) as N.
    destruct (Ascii.eqb c sep) eqn:E.
    + constructor; [reflexivity | assumption].
    + destruct (JS.split sep r) as [|q qs]; [contradiction|].
      inversion IH; subst. constructor; [|assumption].
      simpl. now rewrite H1, E.
Qed.

Lemma concat_parts (p : ascii -> bool) (l : list string) :
  Forall (fun q => allChars p q = true) l ->
  allChars p (String.concat "" l) = true.
Proof.
  induction 1 as [|q qs Hq Hqs IH]; [reflexivity|].
  destruct qs; simpl in *; [assumption|].
  now rewrite allChars_app, Hq, IH.
Qed.

Lemma filter_concat (p : ascii -> bool) (sep : ascii) (l : list string) :
  p sep = false ->
  JS.filterString p (String.concat (String sep "") l)
  = JS.filterString p (String.concat "" l).
Proof.
  intros H. induction l as [|q qs IH]; [reflexivity|].
  destruct qs as [|q' qs']; [reflexivity|].
  change (String.concat (String sep "") (q :: q' :: qs'))
    with (q ++ String sep "" ++ String.concat (String sep "") (q' :: qs')).
  change (String.concat "" (q :: q' :: qs'))
    with (q ++ "" ++ String.concat "" (q' :: qs')).
  rewrite !filter_app, IH. simpl. now rewrite H.
Qed.

Lemma numeric_not_minus (c : ascii) :
  isNumericChar c = true -> negb (Ascii.eqb c "-") = true.
Proof.
  intros H. destruct (Ascii.eqb_spec c "-") as [->|]; [discriminate | reflexivity].
Qed.

Lemma digit_is_numeric (c : ascii) : isDigitChar c = true -> isNumericChar c = true.
Proof. intros H. unfold isNumericChar. now rewrite H. Qed.

(** A text of digits with at most one point goes through unchanged. *)
Lemma clean_unchanged (v : string) :
  allChars isNumericChar v = true ->
  (String.length (JS.filterString (Ascii.eqb ".") v) <= 1)%nat ->
  handleNumericInput v = v.
Proof.
  intros A D. unfold handleNumericInput.
  rewrite (filter_accepted isNumericChar v A).
  rewrite split_length.
  replace (2 <? Z.of_nat (S (String.length (JS.filterString (Ascii.eqb ".") v))))
    with false by (symmetry; apply Z.ltb_ge; lia).
  apply filter_accepted.
  eapply allChars_weaken; [|exact A]. exact numeric_not_minus.
Qed.

(** What the handler keeps, against the input stripped of the
    characters that are not numeric. *)
Lemma kept_facts (value : string) :
  allChars isNumericChar (handleNumericInput value) = true
  /\ (String.length (JS.filterString (Ascii.eqb ".") (handleNumericInput value)) <= 1)%nat
  /\ JS.filterString isDigitChar (handleNumericInput value)
     = JS.filterString isDigitChar (JS.filterString isNumericChar value).
Proof.
  unfold handleNumericInput.
  set (v1 := JS.filterString isNumericChar value).
  assert (A1 : allChars isNumericChar v1 = true) by apply filter_keeps_accepted.
  pose proof (split_join "." v1) as J.
  pose proof (split_parts isNumericChar "." v1 A1) as P.
  pose proof (split_length "." v1) as L.
  destruct (JS.split "." v1) as [|q qs] eqn:S; [discriminate|].
  cbn [nth tl].
  inversion P as [|? ? Pq Pqs]; subst.
  destruct (Z.ltb_spec 2 (Z.of_nat (List.length (q :: qs)))) as [G|G].
  - assert (Aq : allChars isNumericChar q = true)
      by (eapply allChars_weaken; [|exact Pq]; intros c Hc;
          apply andb_true_iff in Hc; tauto).
    assert (Ar : allChars isNumericChar (String.concat "" qs) = true).
    { apply concat_parts. eapply Forall_impl; [|exact Pqs].
      intros a Ha. eapply allChars_weaken; [|exact Ha]. intros c Hc.
      apply andb_true_iff in Hc. tauto. }
    assert (Nq : JS.filterString (Ascii.eqb ".") q = "").
    { apply filter_none. eapply allChars_weaken; [|exact Pq]. intros c Hc.
      apply andb_true_iff in Hc as [_ Hc]. now rewrite Ascii.eqb_sym. }
    assert (Nr : JS.filterString (Ascii.eqb ".") (String.concat "" qs) = "").
    { apply filter_none. apply concat_parts. eapply Forall_impl; [|exact Pqs].
      intros a Ha. eapply allChars_weaken; [|exact Ha]. intros c Hc.
      apply andb_true_iff in Hc as [_ Hc]. now rewrite Ascii.eqb_sym. }
    assert (A2 : allChars isNumericChar (q ++ "." ++ String.concat "" qs) = true).
    { rewrite !allChars_app, Aq, Ar. reflexivity. }
    rewrite (filter_accepted _ _ (allChars_weaken _ _ _ numeric_not_minus A2)).
    split; [exact A2|]. split.
    + rewrite !filter_app, Nq, Nr. simpl. lia.
    + rewrite <- J.
      destruct qs as [|q' qs']; [simpl in G; lia|].
      change (String.concat "." (q :: q' :: qs'))
        with (q ++ "." ++ String.concat "." (q' :: qs')).
      rewrite !filter_app. f_equal. f_equal.
      symmetry. apply (filter_concat isDigitChar "."). reflexivity.
  - rewrite (filter_accepted _ _ (allChars_weaken _ _ _ numeric_not_minus A1)).
    split; [exact A1|]. split; [|reflexivity].
    simpl in L, G. lia.
Qed.

(** X14: whatever is typed or pasted into a numeric field, the value
    kept holds only digits and at most one decimal point, holds every
    digit of the input in the same order, and is left as it is when the
    handler is applied to it again. *)
Theorem numeric_input_sanitized (value : string) :
  let kept := handleNumericInput value in
  allChars isNumericChar kept = true
  /\ (String.length (JS.filterString (Ascii.eqb ".") kept) <= 1)%nat
  /\ JS.filterString isDigitChar kept = JS.filterString isDigitChar value
  /\ handleNumericInput kept = kept.
Proof.
  intros kept. destruct (kept_facts value) as (K1 & K2 & K3). fold kept in K1, K2, K3.
  split; [exact K1|]. split; [exact K2|]. split.
  - rewrite K3. apply filter_filter_weaker, digit_is_numeric.
  - now apply clean_unchanged.
Qed.

(** *** No negative numbers *)

Lemma binary_round_aux_sign (m e : Z) (l : location) :
  nonNegative (binary_round_aux JS.prec JS.emax false m e l) = true
  \/ binary_round_aux JS.prec JS.emax false m e l = S754_nan.
Proof.
  unfold binary_round_aux.
  destruct (shr_fexp JS.prec JS.emax m e l) as [mrs' e'].
  destruct (shr_fexp JS.prec JS.emax _ e' loc_Exact) as [mrs'' e''].
  destruct (shr_m mrs''); [left; reflexivity | | right; reflexivity].
  destruct (e'' <=? JS.emax - JS.prec); left; reflexivity.
Qed.

Lemma Number_of_decimal_sign (m e : Z) :
  nonNegative (JS.Number_of_decimal false m e) = true
  \/ JS.Number_of_decimal false m e = S754_nan.
Proof.
  unfold JS.Number_of_decimal.
  destruct m as [|p|p]; [left; reflexivity | | right; reflexivity].
  destruct (0 <=? e) eqn:E.
  - apply Z.leb_le in E.
    assert (0 <= Zpos p * 10 ^ e) by (apply Z.mul_nonneg_nonneg; [lia|];
                                      apply Z.pow_nonneg; lia).
    unfold binary_normalize.
    destruct (Zpos p * 10 ^ e) as [|q|q] eqn:Q; [left; reflexivity | | lia].
    unfold binary_round.
    destruct (shl_align q 0 _) as [mz ez]. apply binary_round_aux_sign.
  - unfold JS.Number_of_ratio. apply binary_round_aux_sign.
Qed.

Lemma parseFloat_numeric_sign (c : ascii) (r : string) :
  isNumericChar c = true ->
  nonNegative (JS.parseFloat (String c r)) = true
  \/ JS.parseFloat (String c r) = S754_nan.
Proof.
  intros H. unfold JS.parseFloat.
  assert (W : JS.isWhiteSpace c = false).
  { destruct (JS.isWhiteSpace c) eqn:E; [|reflexivity]. exfalso.
    unfold JS.isWhiteSpace, isNumericChar, isDigitChar in *.
    destruct (Ascii.eqb_spec c ".") as [->|]; [discriminate|].
    rewrite orb_false_r in H.
    apply andb_true_iff in H as [H1 H2]. apply Z.leb_le in H1, H2.
    apply orb_true_iff in E as [E|E]; [apply orb_true_iff in E as [E|E]|].
    - apply Z.eqb_eq in E. lia.
    - apply andb_true_iff in E as [E1 E2]. apply Z.leb_le in E1, E2. lia.
    - apply Z.eqb_eq in E. lia. }
  cbn [JS.trimStart]. rewrite W.
  assert (S : JS.readSign (String c r) = (false, String c r)).
  { unfold JS.readSign.
    destruct (Ascii.eqb_spec c "-") as [->|N1]; [discriminate|].
    destruct (Ascii.eqb_spec c "+") as [->|N2]; [discriminate|].
    destruct c as [[] [] [] [] [] [] [] []]; try reflexivity;
      exfalso; (now apply N1) || (now apply N2). }
  rewrite S.
  assert (I : String.prefix "Infinity" (String c r) = false).
  { destruct (Ascii.eqb_spec c "I") as [->|N]; [discriminate|].
    cbn [String.prefix]. destruct (ascii_dec "I" c) as [E|_]; [congruence | reflexivity]. }
  rewrite I.
  destruct (JS.readDigits (String c r) 0 0) as [[ip ni] s2].
  destruct (match s2 with
            | String "." r0 => JS.readDigits r0 ip 0
            | _ => (ip, 0, s2)
            end) as [[m nf] s3].
  destruct (ni + nf =? 0); [right; reflexivity|].
  apply Number_of_decimal_sign.
Qed.

(** X15: the value kept in a numeric field never parses to a negative
    number: parseFloat gives NaN or a Number whose sign is clear. *)
Theorem numeric_input_not_negative (value : string) :
  nonNegative (JS.parseFloat (handleNumericInput value)) = true
  \/ JS.isNaN (JS.parseFloat (handleNumericInput value)) = true.
Proof.
  destruct (kept_facts value) as (A & _).
  destruct (handleNumericInput value) as [|c r].
  - right. reflexivity.
  - simpl in A. apply andb_true_iff in A as [A _].
    destruct (parseFloat_numeric_sign c r A) as [H|H]; [now left|].
    right. now rewrite H.
Qed.
End NumericInputProps.

(** ** Relative timestamps and fees *)
Module DisplayProps.
Import Format.

Section WithHost.
Context {host : JS.Host}.
Variable toLocaleDateString : Z -> bool -> string.

(** X16: a timestamp that parses is shown by its age: Just now below
    one minute, also when it lies in the future; whole minutes below
    one hour, whole hours below one day, whole days below seven days,
    each in the singular for exactly one; from seven days on the
    date, with the year when it differs from the current one.  An
    absent, empty or unparseable timestamp is shown as N/A. *)
Theorem formatTimestamp_by_age (now t : Z) (s : string) :
  s <> "" -> JS.Date_parse s = Some t ->
  let shown := formatTimestamp toLocaleDateString now (Some (DateString s)) in
  let age := now - t in
  (age < 60000 -> shown = "Just now")
  /\ (60000 <= age < 3600000 ->
      shown = JS.decimal (age / 60000) ++ " minute"
              ++ (if age <? 120000 then "" else "s") ++ " ago")
  /\ (3600000 <= age < 86400000 ->
      shown = JS.decimal (age / 3600000) ++ " hour"
              ++ (if age <? 7200000 then "" else "s") ++ " ago")
  /\ (86400000 <= age < 604800000 ->
      shown = JS.decimal (age / 86400000) ++ " day"
              ++ (if age <? 172800000 then "" else "s") ++ " ago")
  /\ (604800000 <= age ->
      shown = toLocaleDateString t
                (negb (JS.YearFromTime (t + JS.LocalTZA t true)
                       =? JS.YearFromTime (now + JS.LocalTZA now true))))
  /\ formatTimestamp toLocaleDateString now None = "N/A"
  /\ formatTimestamp toLocaleDateString now (Some (DateString "")) = "N/A"
  /\ (forall u, JS.Date_parse u = None ->
                formatTimestamp toLocaleDateString now (Some (DateString u)) = "N/A").
Proof.
  intros Hs Hp shown age.
  assert (E : shown
              = if age / 60000 <? 1 then "Just now"
                else if age / 60000 <? 60
                then JS.decimal (age / 60000) ++ " minute"
                     ++ (if 1 <? age / 60000 then "s" else "") ++ " ago"
                else if age / 3600000 <? 24
                then JS.decimal (age / 3600000) ++ " hour"
                     ++ (if 1 <? age / 3600000 then "s" else "") ++ " ago"
                else if age / 86400000 <? 7
                then JS.decimal (age / 86400000) ++ " day"
                     ++ (if 1 <? age / 86400000 then "s" else "") ++ " ago"
                else toLocaleDateString t
                       (negb (JS.YearFromTime (t + JS.LocalTZA t true)
                              =? JS.YearFromTime (now + JS.LocalTZA now true)))).
  { subst shown. unfold formatTimestamp. destruct s; [congruence|]. now rewrite Hp. }
  pose proof (Z.div_mod age 60000 ltac:(lia)) as D1.
  pose proof (Z.mod_pos_bound age 60000 ltac:(lia)) as B1.
  pose proof (Z.div_mod age 3600000 ltac:(lia)) as D2.
  pose proof (Z.mod_pos_bound age 3600000 ltac:(lia)) as B2.
  pose proof (Z.div_mod age 86400000 ltac:(lia)) as D3.
  pose proof (Z.mod_pos_bound age 86400000 ltac:(lia)) as B3.
  repeat split.
  - intros H. rewrite E.
    destruct (Z.ltb_spec (age / 60000) 1); [reflexivity | lia].
  - intros H. rewrite E.
    destruct (Z.ltb_spec (age / 60000) 1); [lia|].
    destruct (Z.ltb_spec (age / 60000) 60); [|lia].
    destruct (Z.ltb_spec 1 (age / 60000)), (Z.ltb_spec age 120000);
      try reflexivity; lia.
  - intros H. rewrite E.
    destruct (Z.ltb_spec (age / 60000) 1); [lia|].
    destruct (Z.ltb_spec (age / 60000) 60); [lia|].
    destruct (Z.ltb_spec (age / 3600000) 24); [|lia].
    destruct (Z.ltb_spec 1 (age / 3600000)), (Z.ltb_spec age 7200000);
      try reflexivity; lia.
  - intros H. rewrite E.
    destruct (Z.ltb_spec (age / 60000) 1); [lia|].
    destruct (Z.ltb_spec (age / 60000) 60); [lia|].
    destruct (Z.ltb_spec (age / 3600000) 24); [lia|].
    destruct (Z.ltb_spec (age / 86400000) 7); [|lia].
    destruct (Z.ltb_spec 1 (age / 86400000)), (Z.ltb_spec age 172800000);
      try reflexivity; lia.
  - intros H. rewrite E.
    destruct (Z.ltb_spec (age / 60000) 1); [lia|].
    destruct (Z.ltb_spec (age / 60000) 60); [lia|].
    destruct (Z.ltb_spec (age / 3600000) 24); [lia|].
    destruct (Z.ltb_spec (age / 86400000) 7); [lia | reflexivity].
  - intros u Hu. unfold formatTimestamp. destruct u; [reflexivity | now rewrite Hu].
Qed.

(** X17: the fee text is 0 followed by the symbol when a gas value is
    missing, empty or unparseable; but when both values parse and
    their product is NaN (an infinite value times zero), it is the
    text [0 ${symbol}], with the symbol not filled in. *)
Theorem calculateFee_zero_cases (gasLimit gasPrice symbol : option string) :
  let sym := match symbol with Some s => s | None => "ETH" end in
  (Spec.present gasLimit = None \/ Spec.present gasPrice = None ->
   calculateFee gasLimit gasPrice symbol = "0 " ++ sym)
  /\ (forall l p,
        Spec.present gasLimit = Some l -> Spec.present gasPrice = Some p ->
        (JS.isNaN (JS.parseFloat l) = true \/ JS.isNaN (JS.parseFloat p) = true ->
         calculateFee gasLimit gasPrice symbol = "0 " ++ sym)
        /\ (JS.isNaN (JS.parseFloat l) = false -> JS.isNaN (JS.parseFloat p) = false ->
            JS.isNaN (JS.Number_mul (JS.parseFloat l) (JS.parseFloat p)) = true ->
            calculateFee gasLimit gasPrice symbol = "0 ${symbol}")).
Proof.
  intros sym. unfold calculateFee. fold sym. split.
  - intros [H|H].
    + destruct gasLimit as [[|c r]|]; try discriminate; reflexivity.
    + destruct gasPrice as [[|c r]|]; try discriminate;
        destruct gasLimit as [[|d q]|]; reflexivity.
  - intros l p Hl Hp.
    assert (gasLimit = Some l /\ l <> "") as [-> Nl]
      by (destruct gasLimit as [[|c r]|]; inversion Hl; split; [reflexivity | discriminate]).
    assert (gasPrice = Some p /\ p <> "") as [-> Np]
      by (destruct gasPrice as [[|c r]|]; inversion Hp; split; [reflexivity | discriminate]).
    assert (T : forall x, x <> "" -> JS.truthy (Some x) = true /\ JS.or_str (Some x) "" = x)
      by (intros [|c r] Hx; [congruence | split; reflexivity]).
    destruct (T l Nl) as [-> ->]. destruct (T p Np) as [-> ->]. cbn [negb orb].
    split.
    + intros [H|H]; rewrite H; [reflexivity | now rewrite orb_true_r].
    + intros H1 H2 H3. rewrite H1, H2. cbn [orb].
      destruct (JS.Number_mul (JS.parseFloat l) (JS.parseFloat p)); try discriminate.
      reflexivity.
Qed.
End WithHost.

Lemma formatTimestamp_by_age_witness :
  "1970-01-01T00:00:01.000Z" <> ""
  /\ JS.Date_parse (Host := JS.utcHost) "1970-01-01T00:00:01.000Z" = Some 1000
  /\ (60000 <= 91000 - 1000 < 3600000 ->
      formatTimestamp (host := JS.utcHost) (fun _ _ => "") 91000
                      (Some (DateString "1970-01-01T00:00:01.000Z"))
      = JS.decimal ((91000 - 1000) / 60000) ++ " minute"
        ++ (if 91000 - 1000 <? 120000 then "" else "s") ++ " ago").
Proof.
  split; [discriminate|]. split; [reflexivity|].
  exact (proj1 (proj2 (formatTimestamp_by_age (host := JS.utcHost) (fun _ _ => "")
                         91000 1000 "1970-01-01T00:00:01.000Z"
                         ltac:(discriminate) eq_refl))).
Defined.

Lemma calculateFee_zero_cases_witness :
  JS.isNaN (JS.parseFloat "Infinity") = false
  /\ JS.isNaN (JS.parseFloat "0") = false
  /\ JS.isNaN (JS.Number_mul (JS.parseFloat "Infinity") (JS.parseFloat "0")) = true
  /\ calculateFee (host := JS.utcHost) (Some "Infinity") (Some "0") (Some "BTC")
     = "0 ${symbol}".
Proof.
  split; [reflexivity|]. split; [reflexivity|]. split; [reflexivity|].
  exact (proj2 (proj2 (calculateFee_zero_cases (host := JS.utcHost)
                          (Some "Infinity") (Some "0") (Some "BTC"))
                  "Infinity" "0" eq_refl eq_refl)
           eq_refl eq_refl eq_refl).
Defined.
End DisplayProps.

(** ** The exported file *)
Module ExportFileProps.
Import Types ExportXLSX.

Lemma splitHead_app (sep : ascii) (a b : string) :
  Format.allChars (fun c => negb (Ascii.eqb c sep)) a = true ->
  JS.splitHead sep (a ++ String sep b) = a.
Proof.
  induction a as [|c r IH]; simpl; intros H.
  - now rewrite Ascii.eqb_refl.
  - apply andb_true_iff in H as [H1 H2]. apply negb_true_iff in H1.
    now rewrite H1, IH.
Qed.

Lemma string_app_assoc (a b c : string) : (a ++ b) ++ c = a ++ (b ++ c).
Proof. induction a as [|x a IH]; simpl; [reflexivity | now rewrite IH]. Qed.

Lemma digits_no_T (s : string) :
  Spec.allDigits s = true ->
  Format.allChars (fun c => negb (Ascii.eqb c "T")) s = true.
Proof.
  induction s as [|c r IH]; simpl; [reflexivity|].
  destruct (JS.digitVal c) eqn:D; [|discriminate]. intros H.
  rewrite (IH H), andb_true_r.
  destruct (Ascii.eqb_spec c "T") as [->|]; [discriminate | reflexivity].
Qed.

(** The date part of toISOString, for a year of four digits. *)
Lemma iso_date (now : Z) :
  let '(y, m, d) := JS.civil_of_days (JS.Day now) in
  0 <= y <= 9999 ->
  JS.splitHead "T" (JS.toISOString now)
  = JS.fixedDigits 4 y ++ "-" ++ JS.fixedDigits 2 m ++ "-" ++ JS.fixedDigits 2 d.
Proof.
  unfold JS.toISOString.
  destruct (JS.civil_of_days (JS.Day now)) as [[y m] d]. intros Hy.
  replace ((0 <=? y) && (y <=? 9999)) with true
    by (symmetry; apply andb_true_iff; split; apply Z.leb_le; lia).
  cbv iota.
  set (date := JS.fixedDigits 4 y ++ "-" ++ JS.fixedDigits 2 m ++ "-" ++ JS.fixedDigits 2 d).
  set (rest := JS.fixedDigits 2 (JS.TimeWithinDay now / 3600000) ++ _).
  assert (E : forall a b c t : string,
             (a ++ "-" ++ b ++ "-" ++ c ++ "T" ++ t)
             = ((a ++ "-" ++ b ++ "-" ++ c) ++ String "T" t)).
  { intros a b c t. now rewrite !string_app_assoc. }
  rewrite E. fold date. apply splitHead_app.
  subst date.
  assert (A : forall a b, Format.allChars (fun c => negb (Ascii.eqb c "T")) a = true ->
                          Format.allChars (fun c => negb (Ascii.eqb c "T")) b = true ->
                          Format.allChars (fun c => negb (Ascii.eqb c "T")) (a ++ "-" ++ b)
                          = true).
  { intros a b Ha Hb. rewrite !NumericInputProps.allChars_app, Ha. simpl. exact Hb. }
  apply A; [apply digits_no_T, ExportProps.fixedDigits_digits|].
  apply A; apply digits_no_T, ExportProps.fixedDigits_digits.
Qed.

Section WithHost.
Context {host : JS.Host}.

(** X18: the export adds exactly one file to those written before,
    under the given name, or transactions.xlsx when none is given; it
    holds a single sheet named Transactions with one record per
    transaction, in the order of the list, and the column widths set
    after the sheet was put into the workbook; a record has ten
    columns and there are ten widths. *)
Theorem export_file_contents
    (transactions : list Transaction) (filename : option string) (w : World) :
  files (execState (exportTransactionsToXLSX transactions filename) w)
  = (files w
     ++ [(match filename with Some f => f | None => "transactions.xlsx" end,
          [("Transactions",
            mkWorksheet (map exportRow transactions) columnWidths)])])%list
  /\ (forall tx, List.length (exportRow tx) = 10%nat)
  /\ List.length columnWidths = 10%nat.
Proof.
  split; [|split; reflexivity].
  unfold exportTransactionsToXLSX, execState. simpl.
  rewrite !ExportProps.updateNth_app_last, !ExportProps.nth_app_last. simpl.
  now rewrite ExportProps.nth_app_last.
Qed.

(** X19: the export button names the file transactions-YYYY-MM-DD.xlsx
    after the date of the click in universal time, for a year of four
    digits. *)
Theorem export_file_name
    (now : Z) (tx : Transaction) (txs : list Transaction) (w : World) :
  0 <= JS.YearFromTime now <= 9999 ->
  let '(y, m, d) := JS.civil_of_days (JS.Day now) in
  map fst (files (execState (InlineFilters.handleExport now (tx :: txs)) w))
  = (map fst (files w)
     ++ [("transactions-" ++ JS.fixedDigits 4 y ++ "-" ++ JS.fixedDigits 2 m
          ++ "-" ++ JS.fixedDigits 2 d ++ ".xlsx")%string])%list.
Proof.
  unfold JS.YearFromTime. pose proof (iso_date now) as I.
  destruct (JS.civil_of_days (JS.Day now)) as [[y m] d]. cbn [fst]. intros Hy.
  rewrite ExportProps.export_nonempty_writes, map_app, (I Hy). cbn [map fst].
  now rewrite !string_app_assoc.
Qed.
End WithHost.

Lemma export_file_name_witness :
  0 <= JS.YearFromTime 1704467220123 <= 9999
  /\ map fst (files (execState (InlineFilters.handleExport (host := JS.utcHost)
                                  1704467220123 [Samples.gasTx]) emptyWorld))
     = ["transactions-2024-01-05.xlsx"].
Proof.
  assert (H : 0 <= JS.YearFromTime 1704467220123 <= 9999) by (vm_compute; split; discriminate).
  split; [exact H|].
  exact (export_file_name (host := JS.utcHost) 1704467220123 Samples.gasTx [] emptyWorld H).
Defined.
End ExportFileProps.

(** ** A value typed again after a clear *)
Module SearchLivenessProps.
Import SearchBar.

(** X20: with the debounce hook modelled as above, when a value has
    reached the filter, the input is cleared with the clear button and
    the same value is typed again within 300 ms of the clear, the
    value is not propagated again: the filter keeps the empty query
    of the clear while the input shows the value. *)
Theorem retyped_value_is_not_propagated (v : string) (t0 t1 t2 T : Z) :
  v <> "" -> 0 <= t0 -> t0 + 300 <= t1 -> t1 <= t2 < t1 + 300 -> t2 + 300 <= T ->
  let events := [(t0, Key v); (t1, Clear); (t2, Key v)] in
  chronological 0 events
  /\ propagations events T (fst (mount 0)) = [(t0 + 300, v); (t1, "")]
  /\ searchQuery (fst (run events (fst (mount 0)))) = v.
Proof.
  intros Hv H0 H1 H2 HT events.
  assert (E1 : (t0 + 300 <=? t1) = true) by (apply Z.leb_le; lia).
  assert (E2 : (t1 + 300 <=? t2) = false) by (apply Z.leb_gt; lia).
  assert (E3 : (t2 + 300 <=? T) = true) by (apply Z.leb_le; lia).
  assert (E4 : String.eqb v "" = false) by (now apply String.eqb_neq).
  assert (E5 : String.eqb v v = true) by apply String.eqb_refl.
  split; [simpl; lia|].
  subst events.
  unfold propagations, run, step, onTimer, onChange, handleClear, mount,
    debouncedSearch, UseDebounce.due, UseDebounce.expire, UseDebounce.input,
    UseDebounce.initial.
  cbn [fst snd debounce searchQuery UseDebounce.pending UseDebounce.debounced app].
  rewrite E1. cbn [fst snd debounce searchQuery UseDebounce.pending
                   UseDebounce.debounced app].
  rewrite E4. cbn [fst snd debounce searchQuery UseDebounce.pending
                   UseDebounce.debounced app].
  rewrite E2. cbn [fst snd debounce searchQuery UseDebounce.pending
                   UseDebounce.debounced app].
  rewrite E3. cbn [fst snd debounce searchQuery UseDebounce.pending
                   UseDebounce.debounced app].
  unfold UseDebounce.due. cbn [UseDebounce.pending]. rewrite E1.
  cbn [UseDebounce.debounced]. rewrite E5. split; reflexivity.
Qed.

Lemma retyped_value_is_not_propagated_witness :
  "abc" <> "" /\ 0 <= 0 /\ 0 + 300 <= 1000 /\ 1000 <= 1100 < 1000 + 300
  /\ 1100 + 300 <= 2000
  /\ propagations [(0, Key "abc"); (1000, Clear); (1100, Key "abc")] 2000
                  (fst (mount 0))
     = [(0 + 300, "abc"); (1000, "")].
Proof.
  repeat (split; [first [discriminate | lia]|]).
  exact (proj1 (proj2 (retyped_value_is_not_propagated "abc" 0 1000 1100 2000
                         ltac:(discriminate) ltac:(lia) ltac:(lia) ltac:(lia)
                         ltac:(lia)))).
Defined.
End SearchLivenessProps.

(** ** More on the filter and on the view *)
Module PipelineProps.
Import Types.

Lemma mapString_length (f : ascii -> ascii) (s : string) :
  String.length (JS.mapString f s) = String.length s.
Proof. induction s as [|c r IH]; simpl; [reflexivity | now rewrite IH]. Qed.

Lemma lower_lower_char (c : ascii) : JS.lowerChar (JS.lowerChar c) = JS.lowerChar c.
Proof. destruct c as [[] [] [] [] [] [] [] []]; reflexivity. Qed.

Lemma lower_of_lower (s : string) :
  JS.toLowerCase (JS.toLowerCase s) = JS.toLowerCase s.
Proof.
  induction s as [|c r IH]; [reflexivity|].
  unfold JS.toLowerCase in *. cbn [JS.mapString].
  now rewrite lower_lower_char, IH.
Qed.

Section WithHost.
Context {host : JS.Host}.

Lemma passesSearch_same_lower (q q' : string) (tx : Transaction) :
  JS.toLowerCase q = JS.toLowerCase q' ->
  Spec.passesSearch q tx = Spec.passesSearch q' tx.
Proof.
  intros E. unfold Spec.passesSearch, Spec.matches. rewrite E.
  pose proof (mapString_length JS.lowerChar q) as L.
  pose proof (mapString_length JS.lowerChar q') as L'.
  fold (JS.toLowerCase q) in L. fold (JS.toLowerCase q') in L'.
  rewrite E in L.
  destruct q, q'; try reflexivity; simpl in *; congruence.
Qed.

(** X21: the search does not tell upper from lower case in the query:
    two queries with the same lower-case form select the same rows,
    in particular a query and its lower-case form. *)
Theorem search_ignores_case
    (txs : list Transaction) (sel : list TransactionStatus)
    (from to : option JS.timeValue) (q q' : string) :
  (JS.toLowerCase q = JS.toLowerCase q' ->
   Page.filteredTransactions txs sel from to q
   = Page.filteredTransactions txs sel from to q')
  /\ Page.filteredTransactions txs sel from to (JS.toLowerCase q)
     = Page.filteredTransactions txs sel from to q.
Proof.
  assert (G : forall a b, JS.toLowerCase a = JS.toLowerCase b ->
                          Page.filteredTransactions txs sel from to a
                          = Page.filteredTransactions txs sel from to b).
  { intros a b E. rewrite !FilterProps.filteredTransactions_filter.
    apply filter_ext. intros tx. unfold Spec.survives.
    now rewrite (passesSearch_same_lower a b tx E). }
  split; [apply G|]. apply G, lower_of_lower.
Qed.

(** X22: filtering never adds rows: the filtered list is never longer
    than the loaded one, filtering it again by the same criteria
    leaves it as it is, and a later start date never shows more rows
    than an earlier one. *)
Theorem filter_narrows
    (txs : list Transaction) (sel : list TransactionStatus)
    (from to : option JS.timeValue) (q : string) (f f' : Z) :
  (List.length (Page.filteredTransactions txs sel from to q) <= List.length txs)%nat
  /\ Page.filteredTransactions (Page.filteredTransactions txs sel from to q)
                               sel from to q
     = Page.filteredTransactions txs sel from to q
  /\ (f <= f' ->
      (List.length (Page.filteredTransactions txs sel (Some (Some f')) to q)
       <= List.length (Page.filteredTransactions txs sel (Some (Some f)) to q))%nat).
Proof.
  rewrite !FilterProps.filteredTransactions_filter. split; [|split].
  - rewrite <- (FilterProps.filter_true txs) at 2.
    apply FilterProps.filter_length_le. reflexivity.
  - rewrite FilterProps.filter_filter. apply filter_ext. intros tx.
    now destruct (Spec.survives sel from to q tx).
  - intros H. apply FilterProps.filter_length_le. intros tx _.
    unfold Spec.survives, Spec.passesDateRange, JS.tv_ge, JS.tv_le.
    rewrite !andb_true_iff. intros [[S [D1 D2]] Q].
    repeat split; try assumption.
    destruct (Spec.effectiveEpoch tx) as [e|]; [|discriminate].
    apply Z.leb_le in D1. apply Z.leb_le. lia.
Qed.

(** X23: in every state of the view, the page-reset effect being
    taken with the render that triggers it, the current page lies in
    [1, max(1, totalPages)], the page size is 10, 15 or 20, and the
    page shown is not empty unless the filtered list is. *)
Theorem shown_page_is_not_empty (v : View.State) :
  View.reachable v ->
  View.pageInRange v /\ (View.rows v <> [] -> View.visibleRows v <> []).
Proof.
  intros R. pose proof (ViewProps.currentPage_stays_in_range v R) as I.
  split; [exact I|]. intros Hne Hv.
  destruct I as [[P1 P2] S].
  unfold View.totalPages, TransactionList.totalPages in P2.
  unfold View.visibleRows, TransactionList.paginatedTransactions,
    TransactionList.endIndex, TransactionList.startIndex in Hv.
  set (ipp := TransactionList.itemsPerPage (View.listState v)) in *.
  set (cp := TransactionList.currentPage (View.listState v)) in *.
  assert (Hd : 0 < ipp) by lia.
  pose proof (PaginationProps.ceilDiv_bounds
                (Z.of_nat (List.length (View.rows v))) ipp Hd) as B.
  pose proof (PaginationProps.slice_length (View.rows v)
                ((cp - 1) * ipp) ((cp - 1) * ipp + ipp) ltac:(nia) ltac:(nia)) as L.
  rewrite Hv in L. simpl in L.
  assert (0 < Z.of_nat (List.length (View.rows v)))
    by (destruct (View.rows v); [congruence | simpl; lia]).
  nia.
Qed.
End WithHost.

Lemma shown_page_is_not_empty_witness :
  View.reachable (host := JS.utcHost)
    (View.step (host := JS.utcHost) View.initial (View.Loaded Samples.twoGroups))
  /\ View.pageInRange (host := JS.utcHost)
       (View.step (host := JS.utcHost) View.initial (View.Loaded Samples.twoGroups)).
Proof.
  assert (R : View.reachable (host := JS.utcHost)
                (View.step (host := JS.utcHost) View.initial
                           (View.Loaded Samples.twoGroups)))
    by (apply View.reachable_step, View.reachable_initial).
  split; [exact R|].
  exact (proj1 (shown_page_is_not_empty (host := JS.utcHost) _ R)).
Defined.
End PipelineProps.

(** ** More of the runtime on sample inputs *)
Module RuntimeExamplesMore.

Example toString_samples :
  JS.Number_toString (JS.parseFloat "0.00042") = "0.00042"
  /\ JS.Number_toString (JS.Number_mul (JS.parseFloat "0.1") (JS.parseFloat "3"))
     = "0.30000000000000004"
  /\ JS.Number_toString (JS.parseFloat "100") = "100"
  /\ JS.Number_toString (JS.parseFloat "1e21") = "1e+21"
  /\ JS.Number_toString (JS.parseFloat "0.000001") = "0.000001"
  /\ JS.Number_toString (JS.parseFloat "0.0000001") = "1e-7"
  /\ JS.Number_toString (JS.parseFloat "-12.5") = "-12.5"
  /\ JS.Number_toString (JS.parseFloat "abc") = "NaN".
Proof. repeat split; vm_compute; reflexivity. Qed.

Example string_samples :
  JS.trim "  0xab  " = "0xab"
  /\ JS.split "." "1.2.3" = ["1"; "2"; "3"]
  /\ JS.split "." "" = [""]
  /\ JS.sliceLast "0123456789" 4 = "6789".
Proof. repeat split; reflexivity. Qed.

Example handleNumericInput_samples :
  CreateTransactionForm.handleNumericInput "-1.5e3" = "1.53"
  /\ CreateTransactionForm.handleNumericInput "1.2.3" = "1.23"
  /\ CreateTransactionForm.handleNumericInput "abc" = "".
Proof. repeat split; reflexivity. Qed.

Example calculateFee_sample :
  Format.calculateFee (host := JS.utcHost) (Some "21000") (Some "0.00000002") None
  = "0.00042 ETH".
Proof. vm_compute. reflexivity. Qed.

Example address_samples :
  Format.getEthereumAddressError "0x742d35Cc6634C0532925a3b844Bc9e7595f0bEb0" = None
  /\ Format.getEthereumAddressError "0x742d35Cc6634C0532925a3b844Bc9e7595f0bEb"
     = Some "Address is too short. Must be 42 characters (0x + 40 hex characters)"
  /\ Format.truncateAddress "0x742d35Cc6634C0532925a3b844Bc9e7595f0bEb0"
     = "0x742d...bEb0".
Proof. repeat split; vm_compute; reflexivity. Qed.
End RuntimeExamplesMore.
